(** * seir.sampling.model : a shallow embedding of [SamplingNInfectiousModel]

    The development follows [src/seir/sampling/model.py].

    Conventions of the embedding.
    - A numpy array is a shape together with its elements in row-major
      order.  Numbers are exact rationals ([Q]); the comparisons and the
      arithmetic of the source are read over them.  Two places are kept
      as the interpreter has them, because there the difference shows in
      the result: the product [nb_samples * ratio_resample] that is
      rounded to the resample count is an IEEE binary64 product, and a
      time grid is a Python list or an array, which [solve] compares
      differently.  Where numpy would produce [inf] or [nan] (a division
      by zero) the rationals have no such value; the lemmas on computed
      values assume non-zero divisors.
    - A Python [dict] is an association list in insertion order, because
      the classifier iterates over [vars.items()].
    - A raised exception is a value of [exn]; code that can raise returns
      a [result].  Methods of the model thread the instance explicitly.
    - [scipy.integrate.odeint], [scipy.special.softmax], [gammaln],
      [np.log] and [np.random.choice] are not part of the repository: they
      are variables of the sections that use them.
    - An [assert] statement is guarded by [debug], Python's [__debug__],
      so that the constructor can be followed both as it normally runs and
      as it runs under [python -O]. *)

From Stdlib Require Import List String Bool Arith ZArith QArith Qround Qabs Lia Lqa.
From Stdlib Require Import Floats.
Import ListNotations.
Open Scope string_scope.

Set Implicit Arguments.

(** ** Exceptions and results *)

Inductive exn : Type :=
| ValueError (msg : string) (key : string) (info : list nat)
| AssertionError (msg : string) (key : string)
| AttributeError (attr : string)
| IndexError (msg : string)
| TypeError (msg : string)
| ZeroDivisionError
| OverflowError (msg : string).

Inductive result (A : Type) : Type :=
| Ok (a : A)
| Raise (e : exn).

Arguments Ok {A} a.
Arguments Raise {A} e.

Definition bind {A B : Type} (r : result A) (k : A -> result B) : result B :=
  match r with
  | Ok a => k a
  | Raise e => Raise e
  end.

Notation "x <- c ;; k" := (bind c (fun x => k))
  (at level 61, c at next level, right associativity).
Notation "c ;;; k" := (bind c (fun _ => k))
  (at level 61, right associativity).

Definition is_ok {A : Type} (r : result A) : bool :=
  match r with Ok _ => true | Raise _ => false end.

(** ** Arrays *)

Record ndarray (A : Type) : Type := mk_ndarray {
  shape : list nat;
  data : list A
}.

Arguments mk_ndarray {A} shape data.

Definition ndim {A} (a : ndarray A) : nat := List.length (shape a).
Definition size {A} (a : ndarray A) : nat := List.length (data a).
Definition prod_shape (s : list nat) : nat := fold_right Nat.mul 1%nat s.

Definition scalar {A} (x : A) : ndarray A := mk_ndarray [] [x].

Definition shape_eqb (s1 s2 : list nat) : bool :=
  if list_eq_dec Nat.eq_dec s1 s2 then true else false.

(** ** Dictionaries *)

Definition dict (V : Type) : Type := list (string * V).

Fixpoint dict_set {V} (k : string) (v : V) (d : dict V) : dict V :=
  match d with
  | [] => [(k, v)]
  | (k', v') :: d' =>
      if String.eqb k k' then (k, v) :: d' else (k', v') :: dict_set k v d'
  end.

Fixpoint dict_get {V} (k : string) (d : dict V) : option V :=
  match d with
  | [] => None
  | (k', v') :: d' => if String.eqb k k' then Some v' else dict_get k d'
  end.

Definition keys {V} (d : dict V) : list string := map fst d.

(** ** [_determine_sample_vars] *)

Module Classifier.

Record cstate : Type := mk_cstate {
  nb_samples : option nat;
  scalar_vars : dict (ndarray Q);
  group_vars : dict (ndarray Q);
  sample_vars : dict (ndarray Q)
}.

Definition init_state : cstate := mk_cstate None [] [] [].

(** Truth value of [nb_samples] in [if nb_samples:]. *)
Definition truthy (n : option nat) : bool :=
  match n with
  | None => false
  | Some k => negb (k =? 0)%nat
  end.

Definition msg_rank1 : string :=
  "should either be zero or two dimensional".
Definition msg_group : string :=
  "seems to be an ill-defined group specific variable".
Definition msg_inconsistent : string :=
  "Inconsistencies in number of samples made for variable".
Definition msg_sampler : string :=
  "is either an ill-defined sampler or population group specific variable".

(** Lines 402-413, the second half of the rank-2 branch:
    [if nb_samples: ...].  It runs for every rank-2 value, whichever of
    the two accepting branches above it was taken. *)
Definition check_samples (nb_groups : nat) (key : string) (value : ndarray Q)
    (st : cstate) : result cstate :=
  let val_shape := shape value in
  match nb_samples st with
  | Some n =>
      if truthy (nb_samples st) then
        if negb (nth 0 val_shape 0 =? n)%nat then
          Raise (ValueError msg_inconsistent key [n; nth 0 val_shape 0%nat])
        else if negb (shape_eqb val_shape [n; 1%nat])
                && negb (shape_eqb val_shape [n; nb_groups]) then
          Raise (ValueError msg_sampler key val_shape)
        else
          Ok (mk_cstate (nb_samples st) (scalar_vars st) (group_vars st)
                (dict_set key value (sample_vars st)))
      else Ok st
  | None => Ok st
  end.

(** One iteration of the loop [for key, value in vars.items()] of lines
    382-415. *)
Definition step (nb_groups : nat) (st : cstate) (kv : string * ndarray Q)
    : result cstate :=
  let key := fst kv in
  let value := snd kv in
  match ndim value with
  | 0%nat =>
      Ok (mk_cstate (nb_samples st) (dict_set key value (scalar_vars st))
            (group_vars st) (sample_vars st))
  | 1%nat => Raise (ValueError msg_rank1 key [])
  | 2%nat =>
      let val_shape := shape value in
      st1 <- (if (1 <? nth 0 val_shape 0)%nat then
                Ok (mk_cstate (Some (nth 0 val_shape 0%nat)) (scalar_vars st)
                      (group_vars st) (sample_vars st))
              else if shape_eqb val_shape [1%nat; nb_groups] then
                Ok (mk_cstate (nb_samples st) (scalar_vars st)
                      (dict_set key value (group_vars st)) (sample_vars st))
              else Raise (ValueError msg_group key (nb_groups :: val_shape))) ;;
      check_samples nb_groups key value st1
  | _ =>
      (* the message is built from [value.ndims], which an array lacks *)
      Raise (AttributeError "ndims")
  end.

Fixpoint loop (nb_groups : nat) (vars : dict (ndarray Q)) (st : cstate)
    : result cstate :=
  match vars with
  | [] => Ok st
  | kv :: rest => st' <- step nb_groups st kv ;; loop nb_groups rest st'
  end.

(** The first loop of the source (lines 373-375) only fills [dim_dict],
    which is not read again; it is left out. *)
Definition _determine_sample_vars (vars : dict (ndarray Q)) (nb_groups : nat)
    : result (nat * (dict (ndarray Q) * dict (ndarray Q) * dict (ndarray Q))) :=
  st <- loop nb_groups vars init_state ;;
  let n := if truthy (nb_samples st) then
             match nb_samples st with Some k => k | None => 1%nat end
           else 1%nat in
  Ok (n, (scalar_vars st, group_vars st, sample_vars st)).

End Classifier.

(** An array of the given shape filled with one value. *)
Definition full (s : list nat) (x : Q) : ndarray Q :=
  mk_ndarray s (repeat x (prod_shape s)).

(** ** Broadcasting and element-wise operations *)

Definition msg_broadcast : string := "operands could not be broadcast together".
Definition msg_reshape : string := "cannot reshape array".
Definition msg_axis : string := "axis is out of bounds for array".

(** [chunks k n l] cuts the first [k * n] elements of [l] into [k] rows. *)
Fixpoint chunks {A} (k n : nat) (l : list A) : list (list A) :=
  match k with
  | O => []
  | S k' => firstn n l :: chunks k' n (skipn n l)
  end.

(** Shapes are aligned on their last axis; an axis of length 1 stretches. *)
Fixpoint bshape_rev (a b : list nat) : option (list nat) :=
  match a, b with
  | [], _ => Some b
  | _, [] => Some a
  | x :: a', y :: b' =>
      match bshape_rev a' b' with
      | None => None
      | Some r =>
          if (x =? y)%nat then Some (x :: r)
          else if (x =? 1)%nat then Some (y :: r)
          else if (y =? 1)%nat then Some (x :: r)
          else None
      end
  end.

Definition broadcast_shapes (a b : list nat) : option (list nat) :=
  option_map (@rev nat) (bshape_rev (rev a) (rev b)).

Definition pad_shape (n : nat) (s : list nat) : list nat :=
  repeat 1%nat (n - List.length s) ++ s.

Fixpoint broadcast_data {A} (sa so : list nat) (d : list A) : list A :=
  match sa, so with
  | da :: sa', dz :: so' =>
      if (da =? dz)%nat then
        List.concat (map (broadcast_data sa' so') (chunks da (prod_shape sa') d))
      else
        List.concat (repeat (broadcast_data sa' so' d) dz)
  | _, _ => d
  end.

Definition broadcast_to {A} (a : ndarray A) (so : list nat) : list A :=
  broadcast_data (pad_shape (List.length so) (shape a)) so (data a).

Definition map2_bc {A B C} (f : A -> B -> C) (a : ndarray A) (b : ndarray B)
    : result (ndarray C) :=
  match broadcast_shapes (shape a) (shape b) with
  | None => Raise (ValueError msg_broadcast "" (shape a ++ shape b))
  | Some s =>
      Ok (mk_ndarray s
            (map (fun p => f (fst p) (snd p))
               (combine (broadcast_to a s) (broadcast_to b s))))
  end.

Definition map_arr {A B} (f : A -> B) (a : ndarray A) : ndarray B :=
  mk_ndarray (shape a) (map f (data a)).

(** [np.all] of a boolean array. *)
Definition np_all (a : ndarray bool) : bool := forallb (fun b => b) (data a).

(** Arithmetic on possibly failed operands: the left operand is evaluated
    first, as in Python. *)
Definition lift2 (f : Q -> Q -> Q) (x y : result (ndarray Q))
    : result (ndarray Q) :=
  a <- x ;; b <- y ;; map2_bc f a b.

Declare Scope arr_scope.
Delimit Scope arr_scope with arr.
Notation "x +^ y" := (lift2 Qplus x y) (at level 50, left associativity) : arr_scope.
Notation "x -^ y" := (lift2 Qminus x y) (at level 50, left associativity) : arr_scope.
Notation "x *^ y" := (lift2 Qmult x y) (at level 40, left associativity) : arr_scope.
Notation "x /^ y" := (lift2 Qdiv x y) (at level 40, left associativity) : arr_scope.

(** A Python number used as an operand. *)
Definition num (q : Q) : result (ndarray Q) := Ok (scalar q).

Definition reshape {A} (a : ndarray A) (s : list nat) : result (ndarray A) :=
  if (prod_shape s =? size a)%nat then Ok (mk_ndarray s (data a))
  else Raise (ValueError msg_reshape "" (size a :: s)).

(** [a.reshape(-1, d1, ..., dk)]: the first axis is inferred. *)
Definition reshape_infer {A} (a : ndarray A) (rest : list nat)
    : result (ndarray A) :=
  let p := prod_shape rest in
  if (p =? 0)%nat then Raise (ValueError msg_reshape "" (size a :: rest))
  else if (size a mod p =? 0)%nat then
    Ok (mk_ndarray ((size a / p)%nat :: rest) (data a))
  else Raise (ValueError msg_reshape "" (size a :: rest)).

Definition qsum (l : list Q) : Q := fold_right Qplus 0 l.

Definition vadd (u v : list Q) : list Q :=
  map (fun p => fst p + snd p) (combine u v).

(** [np.sum(a, axis=ax, keepdims=...)]. *)
Definition sum_axis (keepdims : bool) (ax : nat) (a : ndarray Q)
    : result (ndarray Q) :=
  let pre := firstn ax (shape a) in
  match skipn ax (shape a) with
  | w :: rest =>
      let inner := prod_shape rest in
      Ok (mk_ndarray (pre ++ (if keepdims then [1%nat] else []) ++ rest)
            (flat_map
               (fun blk => fold_right vadd (repeat 0 inner) (chunks w inner blk))
               (chunks (prod_shape pre) (w * inner) (data a))))
  | [] => Raise (ValueError msg_axis "" (ax :: shape a))
  end.

(** [a[:, ..., :, k]] with [ax] leading slices: index [k] on axis [ax]. *)
Definition index_axis {A} (ax : nat) (a : ndarray A) (k : nat)
    : result (ndarray A) :=
  let pre := firstn ax (shape a) in
  match skipn ax (shape a) with
  | w :: rest =>
      let inner := prod_shape rest in
      if (k <? w)%nat then
        Ok (mk_ndarray (pre ++ rest)
              (flat_map (fun blk => firstn inner (skipn (k * inner) blk))
                 (chunks (prod_shape pre) (w * inner) (data a))))
      else Raise (IndexError "index is out of bounds")
  | [] => Raise (IndexError "too many indices for array")
  end.

(** Row [i] of the first axis, as a flat list. *)
Definition row {A} (a : ndarray A) (i : nat) : list A :=
  let inner := prod_shape (tl (shape a)) in
  firstn inner (skipn (i * inner) (data a)).

(** [value[indices]]: rows of the first axis picked by an index list. *)
Definition take_rows {A} (a : ndarray A) (idx : list nat) : result (ndarray A) :=
  match shape a with
  | d0 :: rest =>
      if forallb (fun i => (i <? d0)%nat) idx then
        Ok (mk_ndarray (List.length idx :: rest) (flat_map (row a) idx))
      else Raise (IndexError "index is out of bounds")
  | [] => Raise (IndexError "too many indices for array")
  end.

(** [np.concatenate([...], axis=-1)] of arrays that all have one shape
    [outer ++ [1]], which is how [_ode] uses it. *)
Fixpoint zip_last {A} (cols : list (list A)) (n : nat) : list A :=
  match n with
  | O => []
  | S n' =>
      flat_map (fun c => firstn 1 c) cols ++ zip_last (map (@tl A) cols) n'
  end.

Definition concatenate_last {A} (arrs : list (ndarray A)) : result (ndarray A) :=
  match arrs with
  | [] => Raise (ValueError "need at least one array to concatenate" "" [])
  | a0 :: _ =>
      if forallb (fun a => shape_eqb (shape a) (shape a0)) arrs then
        match rev (shape a0) with
        | 1%nat :: outer_rev =>
            Ok (mk_ndarray (rev outer_rev ++ [List.length arrs])
                  (zip_last (map (@data A) arrs) (prod_shape outer_rev)))
        | _ => Raise (ValueError "concatenate: last axis" "" (shape a0))
        end
      else Raise (ValueError "all the input array dimensions must match" "" [])
  end.

(** Comparisons of rationals as booleans. *)
Definition Qltb (a b : Q) : bool := negb (Qle_bool b a).
Definition Qneb (a b : Q) : bool := negb (Qeq_bool a b).

(** [np.all(a >= c)] and [np.all(a <= c)] for a Python number [c]. *)
Definition all_ge (a : ndarray Q) (c : Q) : bool :=
  np_all (map_arr (fun x => Qle_bool c x) a).
Definition all_le (a : ndarray Q) (c : Q) : bool :=
  np_all (map_arr (fun x => Qle_bool x c) a).

(** [a.clip(min=0)]. *)
Definition clip0 (a : ndarray Q) : ndarray Q :=
  map_arr (fun x => if Qle_bool 0 x then x else 0) a.

(** [assert cond, message].  [debug] is Python's [__debug__]: under
    [python -O] it is false and the statement is skipped. *)
Definition assert (debug cond : bool) (msg key : string) : result unit :=
  if debug then (if cond then Ok tt else Raise (AssertionError msg key))
  else Ok tt.

Fixpoint for_items {V} (d : dict V) (body : string -> V -> result unit)
    : result unit :=
  match d with
  | [] => Ok tt
  | (k, v) :: d' => body k v ;;; for_items d' body
  end.

(** ** The model instance *)

(** The value bound to [log_weights]: a Python number when every channel
    is omitted, an array otherwise. *)
Inductive pyval : Type :=
| PyNum (q : Q)
| PyArr (a : ndarray Q).

(** A time grid as a caller passes it to [solve]: a Python list or an
    array.  [solve] does not convert it, and stores it as it came. *)
Inductive pygrid : Type :=
| PyList (l : list Q)
| NdArray (a : ndarray Q).

#[warning="-uniform-inheritance"]
Coercion NdArray : ndarray >-> pygrid.

(** [np.asarray(t)]. *)
Definition asarray (t : pygrid) : ndarray Q :=
  match t with
  | PyList l => mk_ndarray [List.length l] l
  | NdArray a => a
  end.

Record Model : Type := mk_Model {
  nb_groups : nat;
  nb_states : nat;
  nb_samples : nat;
  nb_infectious : nat;
  beta : ndarray Q;
  rel_beta_as : ndarray Q;
  rel_lockdown_beta : ndarray Q;
  rel_postlockdown_beta : ndarray Q;
  prop_as : ndarray Q;
  prop_m : ndarray Q;
  prop_s : ndarray Q;
  prop_s_to_h : ndarray Q;
  prop_h_to_c : ndarray Q;
  prop_h_to_d : ndarray Q;
  prop_h_to_r : ndarray Q;
  prop_c_to_d : ndarray Q;
  time_inc : ndarray Q;
  time_infectious : ndarray Q;
  time_s_to_h : ndarray Q;
  time_s_to_c : ndarray Q;
  time_h_to_c : ndarray Q;
  time_h_to_r : ndarray Q;
  time_h_to_d : ndarray Q;
  time_c_to_r : ndarray Q;
  time_c_to_d : ndarray Q;
  y0 : ndarray Q;
  n : ndarray Q;
  scalar_vars : dict (ndarray Q);
  group_vars : dict (ndarray Q);
  sample_vars : dict (ndarray Q);
  infectious_func : Q -> result (ndarray Q);
  imported_func : Q -> Q;
  _solved : bool;
  _t : option pygrid;
  solution : option (ndarray Q);
  resample_vars : option (dict (ndarray Q));
  log_weights : option pyval;
  weights : option (ndarray Q);
  (* instance attributes that [__init__] does not assign *)
  other_attrs : dict (ndarray Q)
}.

(** The attributes assigned by [__init__] other than the solution cache
    ([_solved], [_t], [solution]) and the diagnostic outputs
    ([resample_vars], [log_weights], [weights]). *)
Definition constructor_fields (m : Model) :=
  ((nb_groups m, nb_states m, nb_samples m, nb_infectious m),
   (beta m, rel_beta_as m, rel_lockdown_beta m, rel_postlockdown_beta m),
   (prop_as m, prop_m m, prop_s m, prop_s_to_h m),
   (prop_h_to_c m, prop_h_to_d m, prop_h_to_r m, prop_c_to_d m),
   (time_inc m, time_infectious m, time_s_to_h m, time_s_to_c m),
   (time_h_to_c m, time_h_to_r m, time_h_to_d m, time_c_to_r m, time_c_to_d m),
   (y0 m, n m),
   (scalar_vars m, group_vars m, sample_vars m),
   (infectious_func m, imported_func m),
   other_attrs m).

Definition cache_fields (m : Model) := (_solved m, _t m, solution m).

Definition diagnostic_fields (m : Model) :=
  (resample_vars m, log_weights m, weights m).

(** An array whose element count matches its shape. *)
Definition well_formed {A} (a : ndarray A) : Prop :=
  size a = prod_shape (shape a).

(** [self.<name>] for a name that [__init__] does not assign. *)
Definition getattr (self : Model) (name : string) : result (ndarray Q) :=
  match dict_get name (other_attrs self) with
  | Some v => Ok v
  | None => Raise (AttributeError name)
  end.

(** ** [__init__] *)

(** The closure [infectious_func] built by [__init__]; [return 1] is the
    zero-dimensional array holding 1. *)
Definition make_infectious_func (rel_lockdown_beta rel_postlockdown_beta : ndarray Q)
    (t : Q) : result (ndarray Q) :=
  if Qltb t (-11) then num 1
  else if Qle_bool (-11) t && Qltb t 0 then
    (num 1 -^ (num 1 -^ Ok rel_lockdown_beta) /^ num 11 *^ num (t - 11))%arr
  else if Qle_bool 0 t && Qltb t (5 * 7) then Ok rel_lockdown_beta
  else Ok rel_postlockdown_beta.

Record init_args : Type := mk_init_args {
  a_nb_groups : nat;
  a_beta : ndarray Q;
  a_rel_lockdown_beta : ndarray Q;
  a_rel_postlockdown_beta : ndarray Q;
  a_rel_beta_as : ndarray Q;
  a_prop_as : ndarray Q;
  a_prop_m : ndarray Q;
  a_prop_s_to_h : ndarray Q;
  a_prop_h_to_c : ndarray Q;
  a_prop_h_to_d : ndarray Q;
  a_prop_c_to_d : ndarray Q;
  a_time_incubate : ndarray Q;
  a_time_infectious : ndarray Q;
  a_time_s_to_h : ndarray Q;
  a_time_s_to_c : ndarray Q;
  a_time_h_to_c : ndarray Q;
  a_time_h_to_r : ndarray Q;
  a_time_h_to_d : ndarray Q;
  a_time_c_to_r : ndarray Q;
  a_time_c_to_d : ndarray Q;
  a_y0 : ndarray Q;
  a_imported_func : option (Q -> Q)
}.

Definition msg_beta : string := "is smaller than 0".
Definition msg_prop_gt : string := "in proportion is greater than 1".
Definition msg_prop_lt : string := "in proportion is smaller than 0".
Definition msg_time : string := "in time is smaller than 0.".
Definition msg_y0 : string := "y0 should have size".

(** Lines 100-107: the three assertion loops. *)
Definition check_ranges (debug : bool) (beta : ndarray Q)
    (beta_vars prop_vars time_vars : dict (ndarray Q)) : result unit :=
  for_items beta_vars (fun key value =>
    assert debug (all_ge beta 0) msg_beta key) ;;;
  for_items prop_vars (fun key value =>
    assert debug (all_le value 1) msg_prop_gt key ;;;
    assert debug (all_ge value 1) msg_prop_lt key) ;;;
  for_items time_vars (fun key value =>
    assert debug (all_ge value 0) msg_time key).

(** Lines 124-127: the size of [y0]. *)
Definition check_y0 (debug : bool) (nb_states nb_groups nb_samples : nat)
    (y0 : ndarray Q) : result unit :=
  assert debug (size y0 =? nb_states * nb_groups * nb_samples)%nat msg_y0 "y0".

Definition init (debug : bool) (a : init_args) : result Model :=
  let beta := a_beta a in
  let rel_lockdown_beta := a_rel_lockdown_beta a in
  let rel_postlockdown_beta := a_rel_postlockdown_beta a in
  let rel_beta_as := a_rel_beta_as a in
  let prop_as := a_prop_as a in
  let prop_m := a_prop_m a in
  let prop_s_to_h := a_prop_s_to_h a in
  let prop_h_to_c := a_prop_h_to_c a in
  let prop_h_to_d := a_prop_h_to_d a in
  let prop_c_to_d := a_prop_c_to_d a in
  (* calculated vars *)
  prop_s <- (num 1 -^ Ok prop_as -^ Ok prop_m)%arr ;;
  prop_s_to_c <- (num 1 -^ Ok prop_s_to_h)%arr ;;
  prop_h_to_r <- (num 1 -^ Ok prop_h_to_c -^ Ok prop_h_to_d)%arr ;;
  let beta_vars :=
    [("beta", beta); ("rel_lockdown_beta", rel_lockdown_beta);
     ("rel_postlockdown_beta", rel_postlockdown_beta);
     ("rel_beta_as", rel_beta_as)] in
  let prop_vars :=
    [("prop_as", prop_as); ("prop_m", prop_m); ("prop_s", prop_s);
     ("prop_s_to_h", prop_s_to_h); ("prop_s_to_c", prop_s_to_c);
     ("prop_h_to_c", prop_h_to_c); ("prop_h_to_d", prop_h_to_d);
     ("prop_h_to_r", prop_h_to_r); ("prop_c_to_d", prop_c_to_d)] in
  let time_vars :=
    [("time_incubate", a_time_incubate a);
     ("time_infectious", a_time_infectious a);
     ("time_s_to_h", a_time_s_to_h a); ("time_s_to_c", a_time_s_to_c a);
     ("time_h_to_c", a_time_h_to_c a); ("time_h_to_r", a_time_h_to_r a);
     ("time_h_to_d", a_time_h_to_d a); ("time_c_to_r", a_time_c_to_r a);
     ("time_c_to_d", a_time_c_to_d a)] in
  check_ranges debug beta beta_vars prop_vars time_vars ;;;
  let nb_states := 16%nat in
  cls <- Classifier._determine_sample_vars
           (beta_vars ++ prop_vars ++ time_vars)%list (a_nb_groups a) ;;
  let nb_samples := fst cls in
  let scalar_vars := fst (fst (snd cls)) in
  let group_vars := snd (fst (snd cls)) in
  let sample_vars := snd (snd cls) in
  let y0 := a_y0 a in
  check_y0 debug nb_states (a_nb_groups a) nb_samples y0 ;;;
  y0r <- reshape y0 [nb_samples; (a_nb_groups a * nb_states)%nat] ;;
  n <- sum_axis true 1 y0r ;;
  let imported_func :=
    match a_imported_func a with Some f => f | None => fun _ => 0 end in
  Ok (mk_Model (a_nb_groups a) nb_states nb_samples 10
        beta rel_beta_as rel_lockdown_beta rel_postlockdown_beta
        prop_as prop_m prop_s prop_s_to_h prop_h_to_c prop_h_to_d
        prop_h_to_r prop_c_to_d
        (a_time_incubate a) (a_time_infectious a) (a_time_s_to_h a)
        (a_time_s_to_c a) (a_time_h_to_c a) (a_time_h_to_r a)
        (a_time_h_to_d a) (a_time_c_to_r a) (a_time_c_to_d a)
        y0 n scalar_vars group_vars sample_vars
        (make_infectious_func rel_lockdown_beta rel_postlockdown_beta)
        imported_func
        false None None None None None []).

(** ** [_get_seird_from_flat_y] and [_ode] *)

Record seird : Type := mk_seird {
  c_s : ndarray Q; c_e : ndarray Q; c_i_as : ndarray Q; c_i_m : ndarray Q;
  c_i_s : ndarray Q; c_i_i_h : ndarray Q; c_i_i_icu : ndarray Q;
  c_i_h : ndarray Q; c_i_icu : ndarray Q; c_r_as : ndarray Q;
  c_r_m : ndarray Q; c_r_h : ndarray Q; c_r_icu : ndarray Q;
  c_d_icu : ndarray Q
}.

Definition _get_seird_from_flat_y (self : Model) (y : ndarray Q) : result seird :=
  y <- reshape y [nb_samples self; nb_groups self; nb_states self] ;;
  s <- index_axis 2 y 0 ;;
  e <- index_axis 2 y 1 ;;
  i_as <- index_axis 2 y 2 ;;
  i_m <- index_axis 2 y 3 ;;
  i_s <- index_axis 2 y 4 ;;
  i_i_h <- index_axis 2 y 5 ;;
  i_i_icu <- index_axis 2 y 6 ;;
  i_h <- index_axis 2 y 7 ;;
  i_icu <- index_axis 2 y 8 ;;
  r_as <- index_axis 2 y 9 ;;
  r_m <- index_axis 2 y 10 ;;
  r_h <- index_axis 2 y 11 ;;
  r_icu <- index_axis 2 y 12 ;;
  d_icu <- index_axis 2 y 13 ;;
  Ok (mk_seird s e i_as i_m i_s i_i_h i_i_icu i_h i_icu r_as r_m r_h r_icu d_icu).

(** [np.sum(x, axis=1, keepdims=True)] of a possibly failed operand. *)
Definition sum1 (x : result (ndarray Q)) : result (ndarray Q) :=
  a <- x ;; sum_axis true 1 a.

(** The fourteen derivative arrays, in the order of the source. *)
Definition _ode_terms (self : Model) (y : ndarray Q) (t : Q)
    : result (list (ndarray Q)) :=
  c <- _get_seird_from_flat_y self y ;;
  let s := Ok (c_s c) in
  let e := Ok (c_e c) in
  let i_as := Ok (c_i_as c) in
  let i_m := Ok (c_i_m c) in
  let i_s := Ok (c_i_s c) in
  let i_i_h := Ok (c_i_i_h c) in
  let i_i_icu := Ok (c_i_i_icu c) in
  let i_h := Ok (c_i_h c) in
  let i_icu := Ok (c_i_icu c) in
  let n := Ok (n self) in
  let beta := Ok (beta self) in
  let rel_beta_as := Ok (rel_beta_as self) in
  let prop_as := Ok (prop_as self) in
  let prop_m := Ok (prop_m self) in
  let prop_s_to_h := Ok (prop_s_to_h self) in
  let time_inc := Ok (time_inc self) in
  let time_infectious := Ok (time_infectious self) in
  let time_h_to_c := Ok (time_h_to_c self) in
  let time_h_to_r := Ok (time_h_to_r self) in
  let time_c_to_d := Ok (time_c_to_d self) in
  let time_c_to_r := Ok (time_c_to_r self) in
  let f_hosp_icu_prop := getattr self "f_hosp_icu_prop" in
  let f_icu_d_prop := getattr self "f_icu_d_prop" in
  (* get meta vars *)
  inf_s_prop <- (num 1 -^ prop_as -^ prop_m)%arr ;;
  time_i_to_h <- (Ok (time_s_to_h self) -^ time_infectious)%arr ;;
  time_i_to_icu <- (Ok (time_s_to_c self) -^ time_infectious)%arr ;;
  let inf_s_prop := Ok inf_s_prop in
  let time_i_to_h := Ok time_i_to_h in
  let time_i_to_icu := Ok time_i_to_icu in
  (* solve seird equations *)
  ds <- (num (-1) /^ n *^ infectious_func self t *^ beta
           *^ sum1 (rel_beta_as *^ i_as +^ i_m +^ i_s) *^ s)%arr ;;
  de <- (num 1 /^ n *^ infectious_func self t *^ beta
           *^ sum1 (rel_beta_as *^ i_as +^ i_m +^ i_s) *^ s
           -^ e /^ time_inc)%arr ;;
  di_as <- (prop_as *^ e /^ time_inc -^ i_as /^ time_infectious)%arr ;;
  di_m <- (prop_m *^ e /^ time_inc -^ i_m /^ time_infectious)%arr ;;
  di_s <- (inf_s_prop *^ e /^ time_inc -^ i_s /^ time_infectious)%arr ;;
  di_i_h <- (prop_s_to_h *^ i_s /^ time_infectious
               -^ i_i_h /^ time_i_to_h)%arr ;;
  di_i_icu <- ((num 1 -^ prop_s_to_h) *^ i_s /^ time_infectious
                 -^ i_i_icu /^ time_i_to_icu)%arr ;;
  di_h <- (i_i_h /^ time_i_to_h -^ f_hosp_icu_prop *^ i_h /^ time_h_to_c
             -^ (num 1 -^ f_hosp_icu_prop) *^ i_h /^ time_h_to_r)%arr ;;
  di_icu <- (f_hosp_icu_prop *^ i_h /^ time_h_to_c +^ i_i_icu /^ time_i_to_icu
               -^ f_icu_d_prop *^ i_icu /^ time_c_to_d
               -^ (num 1 -^ f_icu_d_prop) *^ i_icu /^ time_c_to_r)%arr ;;
  dr_as <- (i_as /^ time_infectious)%arr ;;
  dr_m <- (i_m /^ time_infectious)%arr ;;
  dr_h <- ((num 1 -^ f_hosp_icu_prop) *^ i_h /^ time_h_to_r)%arr ;;
  dr_icu <- ((num 1 -^ f_icu_d_prop) *^ i_icu /^ time_c_to_r)%arr ;;
  dd_icu <- (f_icu_d_prop *^ i_icu /^ time_c_to_d)%arr ;;
  Ok [ds; de; di_as; di_m; di_s; di_i_h; di_i_icu; di_h; di_icu;
      dr_as; dr_m; dr_h; dr_icu; dd_icu].

Fixpoint reshape_each (terms : list (ndarray Q)) (s : list nat)
    : result (list (ndarray Q)) :=
  match terms with
  | [] => Ok []
  | a :: rest =>
      a' <- reshape a s ;; rest' <- reshape_each rest s ;; Ok (a' :: rest')
  end.

Definition _ode (self : Model) (y : ndarray Q) (t : Q) : result (ndarray Q) :=
  terms <- _ode_terms self y t ;;
  cols <- reshape_each terms [nb_samples self; nb_groups self; 1%nat] ;;
  dydt <- concatenate_last cols ;;
  reshape dydt [size dydt].

(** ** [solve] and [calculate_sir_posterior] *)

(** Truncation towards zero, [astype(int)]. *)
Definition Qtrunc (q : Q) : Q :=
  inject_Z (if Qle_bool 0 q then Qfloor q else Qceiling q).

(** [int(np.round(x))] for a finite double [x] whose exact value is [q]:
    halves go to the even neighbour. *)
Definition np_round (q : Q) : Z :=
  let f := Qfloor q in
  let r := q - inject_Z f in
  if Qltb r (1 # 2) then f
  else if Qltb (1 # 2) r then (f + 1)%Z
  else if Z.even f then f else (f + 1)%Z.

(** The Python int [n] as a double, as [n * ratio] converts it. *)
Definition float_of_nat (n : nat) : float :=
  PrimFloat.of_uint63 (Uint63.of_Z (Z.of_nat n)).

(** The exact value of a double; [int()] of an infinity is an
    [OverflowError] and of a nan a [ValueError]. *)
Definition float_value (x : float) : result Q :=
  match Prim2SF x with
  | S754_zero _ => Ok 0
  | S754_finite s m e =>
      let mag :=
        match e with
        | Z0 => inject_Z (Zpos m)
        | Zpos p => inject_Z (Zpos m * 2 ^ Zpos p)
        | Zneg p => Zpos m # (2 ^ p)
        end in
      Ok (if s then - mag else mag)
  | S754_infinity _ =>
      Raise (OverflowError "cannot convert float infinity to integer")
  | S754_nan => Raise (ValueError "cannot convert float NaN to integer" "" [])
  end.

(** Line 339: [int(np.round(self.nb_samples * ratio_resample))].  The
    product is the binary64 product; rounding it to an integer is exact. *)
Definition resample_count (nb_samples : nat) (ratio_resample : float)
    : result Z :=
  x <- float_value (PrimFloat.mul (float_of_nat nb_samples) ratio_resample) ;;
  Ok (np_round x).

Definition to_array (v : pyval) : ndarray Q :=
  match v with
  | PyNum q => scalar q
  | PyArr a => a
  end.

Definition py_add (x y : pyval) : result pyval :=
  match x, y with
  | PyNum a, PyNum b => Ok (PyNum (a + b))
  | _, _ => r <- map2_bc Qplus (to_array x) (to_array y) ;; Ok (PyArr r)
  end.

(** [v / smoothing] for a Python number [smoothing]. *)
Definition py_div (v : pyval) (smoothing : Q) : result pyval :=
  match v with
  | PyNum a =>
      if Qeq_bool smoothing 0 then Raise ZeroDivisionError
      else Ok (PyNum (a / smoothing))
  | PyArr a => Ok (PyArr (map_arr (fun x => x / smoothing) a))
  end.

(** [v.min()] (and [v.max()], which fails in the same cases): only whether
    the call raises matters, the value goes to the log. *)
Definition py_min_max (v : pyval) : result unit :=
  match v with
  | PyNum _ => Raise (AttributeError "min")
  | PyArr a =>
      if (size a =? 0)%nat then
        Raise (ValueError "zero-size array to reduction operation" "" [])
      else Ok tt
  end.



Fixpoint resample_loop (items : dict (ndarray Q)) (resample_indices : list nat)
    (resample_vars : dict (ndarray Q)) : result (dict (ndarray Q)) :=
  match items with
  | [] => Ok resample_vars
  | (key, value) :: rest =>
      v <- take_rows value resample_indices ;;
      resample_loop rest resample_indices (dict_set key v resample_vars)
  end.

Section Methods.

(** The state of [np.random]. *)
Variable rng_state : Type.

(** [scipy.integrate.odeint(func, y0, t)]. *)
Variable odeint :
  (ndarray Q -> Q -> result (ndarray Q)) -> ndarray Q -> ndarray Q ->
  result (ndarray Q).

(** [np.all(a != b)] for operands whose shapes do not broadcast: a
    [ValueError] in recent numpy, [True] with a warning before. *)
Variable ne_mismatch : result bool.

Variable np_log : Q -> Q.
Variable gammaln : Q -> Q.
Variable softmax : ndarray Q -> ndarray Q.

(** [np.random.choice(a, size, p=p)]. *)
Variable choice :
  rng_state -> nat -> Z -> ndarray Q -> result (list nat) * rng_state.

(** The instance, the calls made to the integrator so far (initial state
    and time grid of each, latest first), and the random state. *)
Record world : Type := mk_world {
  self : Model;
  integrations : list (ndarray Q * ndarray Q);
  rng : rng_state
}.

Definition set_self (w : world) (m : Model) : world :=
  mk_world m (integrations w) (rng w).

(** [np.all(a != b)]. *)
Definition all_ne (a b : ndarray Q) : result bool :=
  match map2_bc Qneb a b with
  | Ok r => Ok (np_all r)
  | Raise _ => ne_mismatch
  end.

(** Equality of two Python lists of numbers. *)
Fixpoint list_eqb (a b : list Q) : bool :=
  match a, b with
  | [], [] => true
  | x :: a', y :: b' => Qeq_bool x y && list_eqb a' b'
  | _, _ => false
  end.

(** [np.all(t != self._t)].  Two lists compare as wholes, giving one
    truth value; as soon as one side is an array the comparison is
    element by element.  Against [None] every element differs. *)
Definition all_ne_opt (t : pygrid) (old : option pygrid) : result bool :=
  match old with
  | None => Ok true
  | Some o =>
      match t, o with
      | PyList a, PyList b => Ok (negb (list_eqb a b))
      | _, _ => all_ne (asarray t) (asarray o)
      end
  end.

(** [odeint(self._ode, y0, t).reshape(-1, nb_samples, nb_groups,
    nb_states).clip(min=0)]; the integrator takes the grid as an array. *)
Definition integrate (w : world) (y0 : ndarray Q) (t : pygrid)
    : result (ndarray Q) * world :=
  let m := self w in
  let t := asarray t in
  let w' := mk_world m ((y0, t) :: integrations w) (rng w) in
  (raw <- odeint (_ode m) y0 t ;;
   sol <- reshape_infer raw [nb_samples m; nb_groups m; nb_states m] ;;
   Ok (clip0 sol), w').

Definition set_cache (m : Model) (solved : bool) (t : option pygrid)
    (sol : option (ndarray Q)) : Model :=
  mk_Model (nb_groups m) (nb_states m) (nb_samples m) (nb_infectious m)
    (beta m) (rel_beta_as m) (rel_lockdown_beta m) (rel_postlockdown_beta m)
    (prop_as m) (prop_m m) (prop_s m) (prop_s_to_h m) (prop_h_to_c m)
    (prop_h_to_d m) (prop_h_to_r m) (prop_c_to_d m)
    (time_inc m) (time_infectious m) (time_s_to_h m) (time_s_to_c m)
    (time_h_to_c m) (time_h_to_r m) (time_h_to_d m) (time_c_to_r m)
    (time_c_to_d m) (y0 m) (n m) (scalar_vars m) (group_vars m)
    (sample_vars m) (infectious_func m) (imported_func m)
    solved t sol
    (resample_vars m) (log_weights m) (weights m) (other_attrs m).

Definition set_posterior (m : Model) (rv : dict (ndarray Q)) (lw : pyval)
    (ws : ndarray Q) : Model :=
  mk_Model (nb_groups m) (nb_states m) (nb_samples m) (nb_infectious m)
    (beta m) (rel_beta_as m) (rel_lockdown_beta m) (rel_postlockdown_beta m)
    (prop_as m) (prop_m m) (prop_s m) (prop_s_to_h m) (prop_h_to_c m)
    (prop_h_to_d m) (prop_h_to_r m) (prop_c_to_d m)
    (time_inc m) (time_infectious m) (time_s_to_h m) (time_s_to_c m)
    (time_h_to_c m) (time_h_to_r m) (time_h_to_d m) (time_c_to_r m)
    (time_c_to_d m) (y0 m) (n m) (scalar_vars m) (group_vars m)
    (sample_vars m) (infectious_func m) (imported_func m)
    (_solved m) (_t m) (solution m)
    (Some rv) (Some lw) (Some ws) (other_attrs m).

(** [solve] returns [self.solution] on the cached path, whatever that
    attribute holds; [None] is Python's [None]. *)
Definition solve (w : world) (t : pygrid) (y0_arg : option (ndarray Q))
    : result (option (ndarray Q)) * world :=
  let m := self w in
  let y0' := match y0_arg with None => y0 m | Some y => y end in
  if negb (_solved m) then
    match integrate w y0' t with
    | (Ok sol, w1) =>
        (Ok (Some sol), set_self w1 (set_cache m true (Some t) (Some sol)))
    | (Raise e, w1) => (Raise e, w1)
    end
  else
    match (b1 <- all_ne_opt t (_t m) ;;
           if b1 then Ok true else all_ne y0' (y0 m)) with
    | Raise e => (Raise e, w)
    | Ok true =>
        match integrate w y0' t with
        | (Ok sol, w1) =>
            (Ok (Some sol),
             set_self w1 (set_cache m (_solved m) (Some t) (Some sol)))
        | (Raise e, w1) => (Raise e, w1)
        end
    | Ok false => (Ok (solution m), w)
    end.

(** [_log_poisson(k, l)] *)
Definition _log_poisson (k l : ndarray Q) : result (ndarray Q) :=
  out <- (Ok k *^ Ok (map_arr (fun x => np_log (x + (1 # 100000000000000000000))) l)
            -^ Ok l -^ Ok (map_arr (fun x => gammaln (x + 1)) k))%arr ;;
  out2 <- sum_axis false 2 out ;;
  sum_axis false 0 out2.

(** [None if obs is None else np.asarray(obs).reshape(-1, 1, 1).astype(int)] *)
Definition cast_obs (obs : option (ndarray Q)) : result (option (ndarray Q)) :=
  match obs with
  | None => Ok None
  | Some a => r <- reshape_infer a [1%nat; 1%nat] ;; Ok (Some (map_arr Qtrunc r))
  end.

(** [0 if obs is None else _log_poisson(obs, l)] *)
Definition channel (obs : option (ndarray Q)) (l : ndarray Q) : result pyval :=
  match obs with
  | None => Ok (PyNum 0)
  | Some k => r <- _log_poisson k l ;; Ok (PyArr r)
  end.

(** [y[:, :, :, k]] on what [solve] returned. *)
Definition slice3 (y : option (ndarray Q)) (k : nat) : result (ndarray Q) :=
  match y with
  | None => Raise (TypeError "'NoneType' object is not subscriptable")
  | Some a => index_axis 3 a k
  end.

(** Lines 300-336: from the solution to [log_weights] and [weights]. *)
Definition posterior_weights (y : option (ndarray Q))
    (i_d_obs i_h_obs i_icu_obs d_icu_obs : option (ndarray Q))
    (ratio_as_detected ratio_m_detected ratio_s_detected smoothing : Q)
    : result (pyval * ndarray Q) :=
  i_as <- slice3 y 2 ;;
  i_m <- slice3 y 3 ;;
  i_s <- slice3 y 4 ;;
  i_i_h <- slice3 y 5 ;;
  i_i_icu <- slice3 y 6 ;;
  i_h <- slice3 y 7 ;;
  i_icu <- slice3 y 8 ;;
  r_as <- slice3 y 9 ;;
  r_m <- slice3 y 10 ;;
  r_h <- slice3 y 11 ;;
  r_icu <- slice3 y 12 ;;
  d_icu <- slice3 y 13 ;;
  cum_detected_samples <-
    (num ratio_as_detected *^ (Ok i_as +^ Ok r_as)
     +^ num ratio_m_detected *^ (Ok i_m +^ Ok r_m)
     +^ num ratio_s_detected
        *^ (Ok i_s +^ Ok i_i_h +^ Ok i_i_icu +^ Ok i_h +^ Ok i_icu
            +^ Ok r_h +^ Ok r_icu +^ Ok d_icu))%arr ;;
  log_weights_detected <- channel i_d_obs cum_detected_samples ;;
  log_weights_hospital <- channel i_h_obs i_h ;;
  log_weights_icu <- channel i_icu_obs i_icu ;;
  log_weights_dead <- channel d_icu_obs d_icu ;;
  lw1 <- py_add log_weights_detected log_weights_hospital ;;
  lw2 <- py_add lw1 log_weights_icu ;;
  log_weights <- py_add lw2 log_weights_dead ;;
  scaled <- py_div log_weights smoothing ;;
  let weights := softmax (to_array scaled) in
  (* the logging lines evaluate [log_weights.min()] and [.max()] *)
  py_min_max log_weights ;;;
  Ok (log_weights, weights).

Definition set_rng (w : world) (r : rng_state) : world :=
  mk_world (self w) (integrations w) r.

(** Lines 338-346: the resample count, the one draw, and the loop that
    re-indexes every sample variable by it. *)
Definition resample (m : Model) (r : rng_state) (weights : ndarray Q)
    (ratio_resample : float) : result (dict (ndarray Q)) * rng_state :=
  match resample_count (nb_samples m) ratio_resample with
  | Raise e => (Raise e, r)
  | Ok count =>
      match choice r (nb_samples m) count weights with
      | (Raise e, r') => (Raise e, r')
      | (Ok resample_indices, r') =>
          (resample_loop (sample_vars m) resample_indices [], r')
      end
  end.

Definition calculate_sir_posterior (w : world) (t : pygrid)
    (i_d_obs i_h_obs i_icu_obs d_icu_obs : option (ndarray Q))
    (ratio_as_detected ratio_m_detected ratio_s_detected : Q)
    (ratio_resample : float)
    (y0_arg : option (ndarray Q)) (smoothing : Q) : result unit * world :=
  (* cast variables *)
  let t := NdArray (asarray t) in
  match (a <- cast_obs i_d_obs ;; b <- cast_obs i_h_obs ;;
         c <- cast_obs i_icu_obs ;; d <- cast_obs d_icu_obs ;;
         Ok (a, b, c, d)) with
  | Raise e => (Raise e, w)
  | Ok (i_d_obs, i_h_obs, i_icu_obs, d_icu_obs) =>
      match solve w t y0_arg with
      | (Raise e, w1) => (Raise e, w1)
      | (Ok y, w1) =>
          match posterior_weights y i_d_obs i_h_obs i_icu_obs d_icu_obs
                  ratio_as_detected ratio_m_detected ratio_s_detected
                  smoothing with
          | Raise e => (Raise e, w1)
          | Ok (log_weights, weights) =>
              (* resample the sampled variables *)
              match resample (self w1) (rng w1) weights ratio_resample with
              | (Raise e, r) => (Raise e, set_rng w1 r)
              | (Ok resample_vars, r) =>
                  (Ok tt,
                   set_self (set_rng w1 r)
                     (set_posterior (self w1) resample_vars
                        log_weights weights))
              end
          end
      end
  end.

End Methods.

(** ** Concrete inputs used by the evaluations below *)

Module Examples.

(** A call of the constructor in which every parameter is a scalar:
    rates 1/2, 1/2, 3/4, 1/2, proportions [p_as], [p_m], 1/2, 1/4, 1/4,
    1/2 and durations between 2 and 10 days. *)
Definition scalar_args (nb_groups : nat) (rel_lockdown_beta p_as p_m : Q)
    (y0 : ndarray Q) : init_args :=
  mk_init_args nb_groups
    (scalar (1 # 2)) (scalar rel_lockdown_beta) (scalar (3 # 4)) (scalar (1 # 2))
    (scalar p_as) (scalar p_m) (scalar (1 # 2)) (scalar (1 # 4))
    (scalar (1 # 4)) (scalar (1 # 2))
    (scalar 5) (scalar 2) (scalar 6) (scalar 6) (scalar 8) (scalar 10)
    (scalar 9) (scalar 10) (scalar 7)
    y0 None.

(** One group, one sample; 999 susceptible and 1 exposed. *)
Definition y0_16 : ndarray Q := mk_ndarray [16%nat] (999 :: 1 :: repeat 0 14).
Definition y0_14 : ndarray Q := mk_ndarray [14%nat] (999 :: 1 :: repeat 0 12).

Definition valid_args : init_args :=
  scalar_args 1 (1 # 2) (1 # 4) (1 # 4) y0_16.

Definition valid_args_y14 : init_args :=
  scalar_args 1 (1 # 2) (1 # 4) (1 # 4) y0_14.

(** No group at all: the proportions are empty [(1, 0)] arrays and the
    lockdown multiplier is negative. *)
Definition empty_prop : ndarray Q := mk_ndarray [1%nat; 0%nat] [].

Definition degenerate_args : init_args :=
  mk_init_args 0
    (scalar (1 # 2)) (scalar (-1)) (scalar (3 # 4)) (scalar (1 # 2))
    empty_prop empty_prop empty_prop empty_prop empty_prop empty_prop
    (scalar 5) (scalar 2) (scalar 6) (scalar 6) (scalar 8) (scalar 10)
    (scalar 9) (scalar 10) (scalar 7)
    (mk_ndarray [0%nat] []) None.

(** Two samples of [beta] and of [time_incubate], one group. *)
Definition beta2 : ndarray Q := mk_ndarray [2%nat; 1%nat] [3 # 10; 7 # 10].
Definition inc2 : ndarray Q := mk_ndarray [2%nat; 1%nat] [4; 6].
Definition y0_32 : ndarray Q :=
  mk_ndarray [32%nat] ((999 :: 1 :: repeat 0 14) ++ (990 :: 10 :: repeat 0 14)).

Definition sampled_args : init_args :=
  mk_init_args 1
    beta2 (scalar (1 # 2)) (scalar (3 # 4)) (scalar (1 # 2))
    (scalar (1 # 4)) (scalar (1 # 4)) (scalar (1 # 2)) (scalar (1 # 4))
    (scalar (1 # 4)) (scalar (1 # 2))
    inc2 (scalar 2) (scalar 6) (scalar 6) (scalar 8) (scalar 10)
    (scalar 9) (scalar 10) (scalar 7)
    y0_32 None.

(** The instance [__init__] builds from [sampled_args] when its
    assertions are switched off. *)
Definition sampled_model : Model :=
  match init false sampled_args with
  | Ok m => m
  | Raise _ =>
      mk_Model 0 0 0 0 (scalar 0) (scalar 0) (scalar 0) (scalar 0)
        (scalar 0) (scalar 0) (scalar 0) (scalar 0) (scalar 0) (scalar 0)
        (scalar 0) (scalar 0) (scalar 0) (scalar 0) (scalar 0) (scalar 0)
        (scalar 0) (scalar 0) (scalar 0) (scalar 0) (scalar 0) (scalar 0)
        (scalar 0) [] [] [] (fun _ => num 0) (fun _ => 0)
        false None None None None None []
  end.

(** The same instance after a caller assigned the two attributes that
    [_ode] reads and [__init__] leaves unset. *)
Definition with_attrs (m : Model) (f_hosp_icu_prop f_icu_d_prop : ndarray Q)
    : Model :=
  mk_Model (nb_groups m) (nb_states m) (nb_samples m) (nb_infectious m)
    (beta m) (rel_beta_as m) (rel_lockdown_beta m) (rel_postlockdown_beta m)
    (prop_as m) (prop_m m) (prop_s m) (prop_s_to_h m) (prop_h_to_c m)
    (prop_h_to_d m) (prop_h_to_r m) (prop_c_to_d m)
    (time_inc m) (time_infectious m) (time_s_to_h m) (time_s_to_c m)
    (time_h_to_c m) (time_h_to_r m) (time_h_to_d m) (time_c_to_r m)
    (time_c_to_d m) (y0 m) (n m) (scalar_vars m) (group_vars m)
    (sample_vars m) (infectious_func m) (imported_func m)
    (_solved m) (_t m) (solution m)
    (resample_vars m) (log_weights m) (weights m)
    [("f_hosp_icu_prop", f_hosp_icu_prop); ("f_icu_d_prop", f_icu_d_prop)].

(** A stand-in for the integrator: the state stays at [y0] on the whole
    grid, and [func] is not called. *)
Definition hold_odeint (func : ndarray Q -> Q -> result (ndarray Q))
    (y0 t : ndarray Q) : result (ndarray Q) :=
  Ok (mk_ndarray [size t; size y0]
        (List.concat (repeat (data y0) (size t)))).

(** A stand-in for [np.random.choice]: the last sample every time; the
    random state counts the draws. *)
Definition last_choice (r : nat) (a : nat) (m : Z) (p : ndarray Q)
    : result (list nat) * nat :=
  if ((0 <=? m)%Z && (0 <? a)%nat)%bool then
    (Ok (repeat (a - 1)%nat (Z.to_nat m)), S r)
  else (Raise (ValueError "choice" "" []), r).


(** Equal weights for two samples. *)
Definition half_weights : ndarray Q := mk_ndarray [2%nat] [1 # 2; 1 # 2].

(** A stand-in for [softmax]: equal weights. *)
Definition uniform_softmax (a : ndarray Q) : ndarray Q :=
  map_arr (fun _ => 1 / inject_Z (Z.of_nat (size a))) a.

Definition mismatch_error : result bool :=
  Raise (ValueError msg_broadcast "" []).

Definition grid (l : list Q) : ndarray Q := mk_ndarray [List.length l] l.

(** A state with people in every compartment, for both samples. *)
Definition y_mixed : ndarray Q :=
  mk_ndarray [32%nat]
    ([900; 20; 10; 9; 8; 7; 6; 5; 4; 3; 2; 1; 1; 1; 0; 0] ++
     [800; 50; 30; 20; 10; 9; 8; 7; 6; 5; 4; 3; 2; 1; 0; 0]).

(** An initial state that differs from [y0_32] at every position. *)
Definition y_other : ndarray Q := mk_ndarray [32%nat] (repeat 5 32).

(** [sampled_model] with the two missing attributes set to the hospital
    and ICU proportions a caller would most plausibly mean. *)
Definition patched_model : Model :=
  with_attrs sampled_model (scalar (1 # 4)) (scalar (1 # 2)).

Definition world0 : world nat := mk_world sampled_model [] 0%nat.

Definition solve0 := solve hold_odeint mismatch_error (rng_state := nat).

Definition posterior0 :=
  calculate_sir_posterior hold_odeint mismatch_error
    (fun _ => 0) (fun _ => 0) uniform_softmax last_choice.


(** The resampler run on the two-sample instance with the hospital channel
    observed and [ratio_resample = 1]. *)
Abbreviation example_run :=
  (calculate_sir_posterior hold_odeint mismatch_error
     (fun _ => 0) (fun _ => 0) uniform_softmax last_choice
     world0 (grid [0; 1; 2]) None
     (Some (grid [1; 2; 3])) None None 0 (3 # 10) 1 1%float None 1).

End Examples.

(** ** Reading arrays on the (sample, group) grid *)

(** Flat position of a multi-index in an array of shape [s]. *)
Fixpoint ravel (s idx : list nat) : nat :=
  match s, idx with
  | _ :: s', i :: idx' => (i * prod_shape s' + ravel s' idx')%nat
  | _, _ => 0%nat
  end.

(** The index read in an operand of shape [sa] when the broadcast result
    is read at [idx]: axes of length 1 are read at 0. *)
Fixpoint bidx (sa idx : list nat) : list nat :=
  match sa, idx with
  | d :: sa', i :: idx' => (if (d =? 1)%nat then 0%nat else i) :: bidx sa' idx'
  | _, _ => []
  end.

Definition valid_index (s idx : list nat) : Prop :=
  Forall2 (fun d i => (i < d)%nat) s idx.

Definition stretches_to (sa so : list nat) : Prop :=
  Forall2 (fun a o => a = o \/ a = 1%nat) sa so.

(** The value an operand contributes to cell [(i, j)] of the
    [(nb_samples, nb_groups)] grid. *)
Definition cell (a : ndarray Q) (i j : nat) : Q :=
  let s := pad_shape 2 (shape a) in
  nth (ravel s (bidx s [i; j])) (data a) 0.

(** Shapes that broadcast against the grid: a scalar, or two axes each of
    length 1 or of the grid's length. *)
Definition fits (S G : nat) (sh : list nat) : Prop :=
  sh = [] \/
  exists a b, sh = [a; b] /\ (a = 1%nat \/ a = S) /\ (b = 1%nat \/ b = G).

(** [r] evaluates to a well-formed array that broadcasts against the
    [(S, G)] grid and contributes [v i j] to cell [(i, j)]; when [full] is
    set its shape is the whole grid [(S, G)]. *)
Definition denotes (S G : nat) (full : bool) (r : result (ndarray Q))
    (v : nat -> nat -> Q) : Prop :=
  exists a,
    r = Ok a /\ well_formed a /\ fits S G (shape a)
    /\ (full = true -> shape a = [S; G])
    /\ forall i j, (i < S)%nat -> (j < G)%nat -> cell a i j = v i j.

Definition on_grid (S G : nat) (a : ndarray Q) : Prop :=
  well_formed a /\ shape a = [S; G].

Definition broadcastable (S G : nat) (a : ndarray Q) : Prop :=
  well_formed a /\ fits S G (shape a).

(** The nine divisors of [_ode], cell by cell.  Where one of them is zero
    numpy yields [inf] or [nan]; the rationals have no such value, so what
    is proved of the values of [_ode] is proved where none is zero. *)
Definition divisors_nonzero (m : Model) : Prop :=
  forall i j, (i < nb_samples m)%nat -> (j < nb_groups m)%nat ->
    ~ cell (n m) i j == 0
    /\ ~ cell (time_inc m) i j == 0
    /\ ~ cell (time_infectious m) i j == 0
    /\ ~ cell (time_s_to_h m) i j - cell (time_infectious m) i j == 0
    /\ ~ cell (time_s_to_c m) i j - cell (time_infectious m) i j == 0
    /\ ~ cell (time_h_to_c m) i j == 0
    /\ ~ cell (time_h_to_r m) i j == 0
    /\ ~ cell (time_c_to_d m) i j == 0
    /\ ~ cell (time_c_to_r m) i j == 0.

(** What [_ode] needs of the instance at time [t]: no zero divisor, at
    least 14 state values per cell, every parameter it reads
    broadcastable against the grid, the two attributes it reads present,
    and a multiplier. *)
Definition ode_ready (m : Model) (t : Q) : Prop :=
  divisors_nonzero m
  /\ (14 <= nb_states m)%nat
  /\ Forall (broadcastable (nb_samples m) (nb_groups m))
       [n m; beta m; rel_beta_as m; prop_as m; prop_m m; prop_s_to_h m;
        time_inc m; time_infectious m; time_s_to_h m; time_s_to_c m;
        time_h_to_c m; time_h_to_r m; time_c_to_d m; time_c_to_r m]
  /\ (exists f, getattr m "f_hosp_icu_prop" = Ok f
                /\ broadcastable (nb_samples m) (nb_groups m) f)
  /\ (exists g, getattr m "f_icu_d_prop" = Ok g
                /\ broadcastable (nb_samples m) (nb_groups m) g)
  /\ (exists a, infectious_func m t = Ok a
                /\ broadcastable (nb_samples m) (nb_groups m) a).

(** ** Classes of parameters *)

(** The shapes the classifier files under the sample variables. *)
Definition sample_shape (nb_groups : nat) (s : list nat) : Prop :=
  exists k, (1 < k)%nat /\ (s = [k; 1%nat] \/ s = [k; nb_groups]).

(** First-axis length of the last value, in iteration order, that has two
    axes and more than one row. *)
Definition last_sample_count (vars : dict (ndarray Q)) : option nat :=
  fold_left
    (fun acc kv =>
       match shape (snd kv) with
       | [d0; _] => if (1 <? d0)%nat then Some d0 else acc
       | _ => acc
       end)
    vars None.

Definition count_ok (st : Classifier.cstate) : Prop :=
  forall n, Classifier.nb_samples st = Some n -> (1 < n)%nat.

(** Where a key and its value are filed in a state. *)
Definition filed (nb_groups : nat) (st : Classifier.cstate) (key : string)
    (value : ndarray Q) : Prop :=
  (ndim value = 0%nat /\ In (key, value) (Classifier.scalar_vars st))
  \/ (shape value = [1%nat; nb_groups] /\ In (key, value) (Classifier.group_vars st))
  \/ (sample_shape nb_groups (shape value)
      /\ In (key, value) (Classifier.sample_vars st)).

(** Parameters of every class, in an order the classifier accepts. *)
Definition mixed_vars : dict (ndarray Q) :=
  [("s", scalar 1); ("g", full [1%nat; 2%nat] 1);
   ("a", full [3%nat; 1%nat] 1); ("b", full [3%nat; 2%nat] 1)].

(** Shapes with no axis or two axes, every axis non-empty. *)
Definition solid (s : list nat) : Prop :=
  s = [] \/ exists p q, s = [p; q] /\ (0 < p)%nat /\ (0 < q)%nat.

(** The instance [__init__] builds from [Examples.degenerate_args] with
    its assertions on. *)
Definition degenerate_model : Model :=
  match init true Examples.degenerate_args with
  | Ok m => m
  | Raise _ => Examples.sampled_model
  end.

(** A stand-in for the integrator that evaluates the derivative once, at
    the initial state and the first time of the grid, and then holds the
    state; an exception of the derivative is passed on. *)
Definition probe_odeint (func : ndarray Q -> Q -> result (ndarray Q))
    (y0 t : ndarray Q) : result (ndarray Q) :=
  func y0 (nth 0 (data t) 0) ;;;
  Examples.hold_odeint func y0 t.

(** * Properties *)

(** ** The shape classifier *)

Module ClassifierFacts.
Import Classifier.

Lemma shape_eqb_refl s : shape_eqb s s = true.
Proof. unfold shape_eqb. destruct (list_eq_dec Nat.eq_dec s s); congruence. Qed.

Lemma truthy_gt1 k : (1 < k)%nat -> truthy (Some k) = true.
Proof. intros H. simpl. destruct k; [lia | reflexivity]. Qed.

(** A tensor of shape [(k, 1)] with [k > 1] is stored as a sample
    variable whatever sample count the loop had seen before: the branch
    that recognises it first overwrites [nb_samples] with [k]. *)
Lemma step_sample_overwrites nb_groups st key value k :
  (1 < k)%nat ->
  shape value = [k; 1%nat] ->
  step nb_groups st (key, value) =
    Ok (mk_cstate (Some k) (scalar_vars st) (group_vars st)
          (dict_set key value (sample_vars st))).
Proof.
  intros Hk Hs. unfold step, ndim. simpl fst. simpl snd. rewrite Hs.
  simpl List.length. simpl nth.
  destruct (Nat.ltb_spec 1 k) as [_|Hf]; [|lia].
  unfold bind, check_samples. simpl nb_samples. rewrite Hs. simpl nth.
  rewrite (truthy_gt1 Hk), Nat.eqb_refl, shape_eqb_refl. reflexivity.
Qed.

Lemma two_samples_last_wins nb_groups ka kb a b k1 k2 :
  (1 < k1)%nat -> (1 < k2)%nat ->
  shape a = [k1; 1%nat] -> shape b = [k2; 1%nat] ->
  _determine_sample_vars [(ka, a); (kb, b)] nb_groups =
    Ok (k2, ([], [], dict_set kb b [(ka, a)])).
Proof.
  intros H1 H2 Ha Hb. unfold _determine_sample_vars. simpl loop.
  rewrite (step_sample_overwrites nb_groups init_state ka a H1 Ha).
  unfold bind at 2.
  rewrite (step_sample_overwrites nb_groups _ kb b H2 Hb).
  unfold bind. simpl nb_samples.
  rewrite (truthy_gt1 H2). reflexivity.
Qed.

(** A group vector met after a sample tensor is rejected, by the check
    meant for sample tensors. *)
Lemma step_group_after_sample nb_groups st key value k :
  nb_samples st = Some k -> (1 < k)%nat ->
  shape value = [1%nat; nb_groups] ->
  step nb_groups st (key, value) =
    Raise (ValueError msg_inconsistent key [k; 1%nat]).
Proof.
  intros Hn Hk Hs. unfold step, ndim. simpl fst. simpl snd. rewrite Hs.
  simpl List.length. simpl nth. rewrite Nat.ltb_irrefl.
  rewrite shape_eqb_refl. unfold bind, check_samples.
  cbn [nb_samples scalar_vars group_vars sample_vars].
  rewrite Hn, Hs. cbn [nth]. rewrite (truthy_gt1 Hk).
  destruct (Nat.eqb_spec 1 k); [lia | reflexivity].
Qed.

(** The same group vector met before any sample tensor is accepted. *)
Lemma step_group_first nb_groups st key value :
  nb_samples st = None ->
  shape value = [1%nat; nb_groups] ->
  step nb_groups st (key, value) =
    Ok (mk_cstate None (scalar_vars st)
          (dict_set key value (group_vars st)) (sample_vars st)).
Proof.
  intros Hn Hs. unfold step, ndim. simpl fst. simpl snd. rewrite Hs.
  simpl List.length. simpl nth. rewrite Nat.ltb_irrefl.
  rewrite shape_eqb_refl. unfold bind, check_samples.
  cbn [nb_samples scalar_vars group_vars sample_vars].
  rewrite Hn. reflexivity.
Qed.

End ClassifierFacts.

(** C1. Two sample tensors of first-axis lengths 3 and 5 are both accepted:
    the classifier returns [nb_samples = 5] and keeps the 3-row tensor
    among the sample variables, where the claim asks for a validation
    error. *)
Theorem C1_differing_sample_counts_accepted :
  Classifier._determine_sample_vars
    [("a", full [3%nat; 1%nat] 1); ("b", full [5%nat; 1%nat] 1)] 1 =
  Ok (5%nat,
      ([], [],
       [("a", full [3%nat; 1%nat] 1); ("b", full [5%nat; 1%nat] 1)])).
Proof. reflexivity. Qed.

(** C9. The classification depends on the iteration order: a sample tensor
    followed by a [(1, nb_groups)] group vector raises, the same two
    parameters in the other order are classified. *)
Theorem C9_order_dependent :
  Classifier._determine_sample_vars
    [("a", full [3%nat; 1%nat] 1); ("g", full [1%nat; 2%nat] 1)] 2 =
  Raise (ValueError Classifier.msg_inconsistent "g" [3%nat; 1%nat])
  /\
  Classifier._determine_sample_vars
    [("g", full [1%nat; 2%nat] 1); ("a", full [3%nat; 1%nat] 1)] 2 =
  Ok (3%nat,
      ([], [("g", full [1%nat; 2%nat] 1)], [("a", full [3%nat; 1%nat] 1)])).
Proof. split; reflexivity. Qed.

(** ** The constructor *)

Module InitFacts.

Lemma assert_ok cond msg key :
  assert true cond msg key = Ok tt -> cond = true.
Proof. unfold assert. destruct cond; [reflexivity | discriminate]. Qed.

Lemma bind_ok {A B} (r : result A) (k : A -> result B) b :
  bind r k = Ok b -> exists a, r = Ok a /\ k a = Ok b.
Proof. destruct r as [a|e]; simpl; [eauto | discriminate]. Qed.

(** The loop over the rates tests [beta] at every iteration, so the other
    three rates are never looked at. *)
Lemma rates_loop_reads_beta_only debug beta (beta_vars : dict (ndarray Q)) :
  all_ge beta 0 = true ->
  for_items beta_vars
    (fun key value => assert debug (all_ge beta 0) msg_beta key) = Ok tt.
Proof.
  intros Hb.
  assert (Hf : forall key, assert debug (all_ge beta 0) msg_beta key = Ok tt)
    by (intros key; rewrite Hb; destruct debug; reflexivity).
  induction beta_vars as [|[k v] rest IH]; simpl; [reflexivity|].
  rewrite Hf. simpl. exact IH.
Qed.

Lemma all_le_forall a c :
  all_le a c = true -> Forall (fun x => x <= c) (data a).
Proof.
  unfold all_le, np_all, map_arr. simpl. rewrite forallb_forall.
  intros H. apply Forall_forall. intros x Hx.
  apply Qle_bool_iff. apply (H (Qle_bool x c)). apply in_map_iff. eauto.
Qed.

Lemma all_ge_forall a c :
  all_ge a c = true -> Forall (fun x => c <= x) (data a).
Proof.
  unfold all_ge, np_all, map_arr. simpl. rewrite forallb_forall.
  intros H. apply Forall_forall. intros x Hx.
  apply Qle_bool_iff. apply (H (Qle_bool c x)). apply in_map_iff. eauto.
Qed.

(** The loop over the proportions lets a value through only if every
    element is exactly 1. *)
Lemma props_loop_exactly_one (prop_vars : dict (ndarray Q)) :
  for_items prop_vars (fun key value =>
    assert true (all_le value 1) msg_prop_gt key ;;;
    assert true (all_ge value 1) msg_prop_lt key) = Ok tt ->
  forall key value, In (key, value) prop_vars ->
    Forall (fun x => x == 1) (data value).
Proof.
  induction prop_vars as [|[k v] rest IH]; simpl; intros H key value Hin;
    [contradiction|].
  apply bind_ok in H. destruct H as [[] [H1 H2]].
  apply bind_ok in H1. destruct H1 as [[] [Hle Hge]].
  apply assert_ok in Hle. apply assert_ok in Hge.
  destruct Hin as [Heq|Hin]; [|exact (IH H2 key value Hin)].
  inversion Heq; subst.
  pose proof (all_le_forall _ _ Hle) as L.
  pose proof (all_ge_forall _ _ Hge) as G.
  rewrite Forall_forall in *; intros x Hx.
  apply Qle_antisym; [apply L | apply G]; exact Hx.
Qed.

Lemma reshape_ok {A} (a : ndarray A) s r :
  reshape a s = Ok r -> prod_shape s = size a /\ r = mk_ndarray s (data a).
Proof.
  unfold reshape. destruct (Nat.eqb_spec (prod_shape s) (size a));
    [intros H; inversion H; auto | discriminate].
Qed.

(** Every instance the constructor returns stores 16 state values per
    sample and group, with or without assertions. *)
Lemma init_y0_size debug a m :
  init debug a = Ok m ->
  nb_states m = 16%nat /\
  size (y0 m) = (16 * nb_groups m * nb_samples m)%nat.
Proof.
  unfold init. intros H.
  repeat (apply bind_ok in H; destruct H as [? [? H]]).
  inversion H; subst; clear H. simpl.
  match goal with
  | Hr : reshape _ _ = Ok _ |- _ =>
      apply reshape_ok in Hr; destruct Hr as [Hr _];
      split; [reflexivity|]; rewrite <- Hr; simpl; lia
  end.
Qed.

End InitFacts.

(** C2. Proportions inside [0, 1] are rejected (the lower-bound test
    compares with 1), and a negative lockdown multiplier is accepted (the
    rate loop tests [beta] only): construction does not succeed exactly on
    the in-range parameters. *)
Theorem C2_range_checks_reject_valid_accept_invalid :
  init true Examples.valid_args = Raise (AssertionError msg_prop_lt "prop_as")
  /\ is_ok (init true Examples.degenerate_args) = true
  /\ all_ge (a_rel_lockdown_beta Examples.degenerate_args) 0 = false.
Proof. repeat split; reflexivity. Qed.

(** C6. The size demanded of [y0] is 16 per sample and group, not 14: with
    one group and one sample a 14-element [y0] fails the size assertion
    and a 16-element one passes it; without assertions the constructor
    still fails on 14 elements and builds an instance with
    [nb_states = 16] on 16; the trajectory has 16 as its last axis. *)
Theorem C6_state_size_is_16_not_14 :
  check_y0 true 16 1 1 Examples.y0_14 = Raise (AssertionError msg_y0 "y0")
  /\ check_y0 true 16 1 1 Examples.y0_16 = Ok tt
  /\ is_ok (init false Examples.valid_args_y14) = false
  /\ (exists m, init false Examples.valid_args = Ok m /\ nb_states m = 16%nat)
  /\ (exists sol,
        fst (Examples.solve0 Examples.world0 (Examples.grid [0; 1; 2]) None)
          = Ok (Some sol)
        /\ shape sol = [3; 2; 1; 16]%nat).
Proof.
  split; [reflexivity|]. split; [reflexivity|]. split; [reflexivity|].
  split.
  - destruct (init false Examples.valid_args) as [m|e] eqn:E.
    + exists m. split; [reflexivity|].
      apply (InitFacts.init_y0_size _ _ E).
    + vm_compute in E. discriminate.
  - eexists. split; [vm_compute; reflexivity | reflexivity].
Qed.

(** ** The infectiousness multiplier *)

Module InfectiousFacts.

Lemma before_ramp r rp t :
  t < -11 -> make_infectious_func r rp t = Ok (scalar 1).
Proof.
  intros H. unfold make_infectious_func, Qltb.
  destruct (Qle_bool (-11) t) eqn:E; [|reflexivity].
  apply Qle_bool_iff in E. exfalso. apply (Qlt_not_le _ _ H E).
Qed.

(** On the ramp the source computes [1 - (1 - r) / 11 * (t - 11)]. *)
Lemma on_ramp r rp t :
  -11 <= t -> t < 0 ->
  make_infectious_func (scalar r) rp t =
    Ok (scalar (1 - (1 - r) / 11 * (t - 11))).
Proof.
  intros H1 H2. unfold make_infectious_func, Qltb.
  apply Qle_bool_iff in H1. rewrite H1. simpl negb. cbv iota.
  destruct (Qle_bool 0 t) eqn:E.
  - apply Qle_bool_iff in E. exfalso. apply (Qlt_not_le _ _ H2 E).
  - reflexivity.
Qed.

Lemma ramp_value_at_start r :
  1 - (1 - r) / 11 * (-11 - 11) == 3 - 2 * r.
Proof. field. Qed.

Lemma ramp_limit_at_zero r :
  1 - (1 - r) / 11 * (0 - 11) == 2 - r.
Proof. field. Qed.

Lemma plateau r rp t :
  0 <= t -> t < 35 -> make_infectious_func r rp t = Ok r.
Proof.
  intros H1 H2. unfold make_infectious_func, Qltb.
  assert (E1 : Qle_bool (-11) t = true).
  { apply Qle_bool_iff. apply Qle_trans with 0; [discriminate | exact H1]. }
  rewrite E1. simpl negb. cbv iota.
  apply Qle_bool_iff in H1. rewrite H1. simpl negb. simpl andb. cbv iota.
  destruct (Qle_bool (5 * 7) t) eqn:E; [|reflexivity].
  apply Qle_bool_iff in E. exfalso. apply (Qlt_not_le _ _ H2).
  apply Qle_trans with (5 * 7); [discriminate | exact E].
Qed.

Lemma after_lockdown r rp t :
  35 <= t -> make_infectious_func r rp t = Ok rp.
Proof.
  intros H. unfold make_infectious_func, Qltb.
  assert (E0 : Qle_bool 0 t = true).
  { apply Qle_bool_iff. apply Qle_trans with 35; [discriminate | exact H]. }
  assert (E1 : Qle_bool (-11) t = true).
  { apply Qle_bool_iff. apply Qle_trans with 35; [discriminate | exact H]. }
  assert (E2 : Qle_bool (5 * 7) t = true).
  { apply Qle_bool_iff. apply Qle_trans with 35; [discriminate | exact H]. }
  rewrite E1, E0, E2. reflexivity.
Qed.

End InfectiousFacts.

(** C4. At [t = -11] with [rel_lockdown_beta = 5/16] the multiplier is
    19/8, not 1: the ramp is written with [t - 11] where [t + 11] gives
    the ramp of the claim. *)
Theorem C4_ramp_is_not_one_at_minus_11 :
  exists v,
    make_infectious_func (scalar (5 # 16)) (scalar (3 # 4)) (-11) = Ok (scalar v)
    /\ v == 19 # 8 /\ ~ v == 1.
Proof.
  eexists. split; [vm_compute; reflexivity|].
  split; [reflexivity | discriminate].
Qed.

(** ** The derivative *)

Module OdeFacts.

Lemma bind_not_ok {A B} (r : result A) (k : A -> result B) :
  is_ok r = false -> is_ok (bind r k) = false.
Proof. destruct r; [discriminate | reflexivity]. Qed.

Lemma lift2_not_ok_l f x y :
  is_ok x = false -> is_ok (lift2 f x y) = false.
Proof. destruct x; [discriminate | reflexivity]. Qed.

Lemma lift2_not_ok_r f x y :
  is_ok y = false -> is_ok (lift2 f x y) = false.
Proof.
  intros H. destruct x as [a|e]; [|reflexivity].
  destruct y; [discriminate | reflexivity].
Qed.

Lemma getattr_missing m name :
  other_attrs m = [] -> is_ok (getattr m name) = false.
Proof. intros H. unfold getattr. rewrite H. reflexivity. Qed.

Ltac step_bind :=
  cbv zeta;
  match goal with
  | |- is_ok (bind ?r _) = false =>
      destruct r as [?|?]; [cbn [bind] | reflexivity]
  end.

(** Without the attribute [f_hosp_icu_prop] the statement that computes
    [di_h] cannot complete, so [_ode_terms] never returns. *)
Lemma ode_terms_need_attrs m y t :
  other_attrs m = [] -> is_ok (_ode_terms m y t) = false.
Proof.
  intros H. unfold _ode_terms.
  do 11 step_bind.
  cbv zeta. apply bind_not_ok.
  apply lift2_not_ok_l. apply lift2_not_ok_r.
  apply lift2_not_ok_l. apply lift2_not_ok_l.
  apply getattr_missing. exact H.
Qed.

Lemma ode_needs_attrs m y t :
  other_attrs m = [] -> is_ok (_ode m y t) = false.
Proof.
  intros H. unfold _ode. apply bind_not_ok.
  apply ode_terms_need_attrs. exact H.
Qed.

Lemma init_sets_no_other_attr debug a m :
  init debug a = Ok m -> other_attrs m = [].
Proof.
  unfold init. intros H.
  repeat (apply InitFacts.bind_ok in H; destruct H as [? [? H]]).
  inversion H; subst. reflexivity.
Qed.

(** On the two-sample instance the exception is the missing attribute. *)
Lemma ode_example_attribute_error :
  _ode Examples.sampled_model Examples.y_mixed 0 =
    Raise (AttributeError "f_hosp_icu_prop").
Proof. vm_compute. reflexivity. Qed.

(** Once a caller has assigned the two attributes, the fourteen
    components of each (sample, group) cell add up to zero. *)
Lemma ode_example_conserves_when_patched :
  exists d,
    _ode Examples.patched_model Examples.y_mixed 0 = Ok d
    /\ shape d = [28%nat]
    /\ forallb (fun cell => Qeq_bool (qsum cell) 0) (chunks 2 14 (data d))
       = true.
Proof. eexists. split; [vm_compute; reflexivity|]. split; reflexivity. Qed.

End OdeFacts.

(** C3. On every instance the constructor returns, the derivative function
    raises instead of returning a vector: it reads [self.f_hosp_icu_prop],
    which the constructor never assigns.  No component sum exists to be
    zero. *)
Theorem C3_derivative_raises_on_constructed_models :
  forall debug a m y t,
    init debug a = Ok m -> is_ok (_ode m y t) = false.
Proof.
  intros debug a m y t H. apply OdeFacts.ode_needs_attrs.
  apply (OdeFacts.init_sets_no_other_attr _ _ H).
Qed.

Lemma C3_witness :
  init false Examples.sampled_args = Ok Examples.sampled_model
  /\ is_ok (_ode Examples.sampled_model Examples.y_mixed 0) = false.
Proof.
  split.
  - vm_compute. reflexivity.
  - apply (@C3_derivative_raises_on_constructed_models
             false Examples.sampled_args Examples.sampled_model
             Examples.y_mixed 0).
    vm_compute. reflexivity.
Defined.

(** ** The two methods *)

Section MethodFacts.

Variable rng_state : Type.
Variable odeint :
  (ndarray Q -> Q -> result (ndarray Q)) -> ndarray Q -> ndarray Q ->
  result (ndarray Q).
Variable ne_mismatch : result bool.
Variables np_log gammaln : Q -> Q.
Variable softmax : ndarray Q -> ndarray Q.
Variable choice :
  rng_state -> nat -> Z -> ndarray Q -> result (list nat) * rng_state.

Abbreviation World := (world rng_state).
Abbreviation Solve := (solve odeint ne_mismatch).
Abbreviation Integrate := (integrate odeint).
Abbreviation Posterior :=
  (calculate_sir_posterior odeint ne_mismatch np_log gammaln softmax choice).


(** [solve] writes the cache and nothing else; it does not draw random
    numbers. *)
Lemma solve_frame (w : World) t y0_arg :
  constructor_fields (self (snd (Solve w t y0_arg)))
    = constructor_fields (self w)
  /\ diagnostic_fields (self (snd (Solve w t y0_arg)))
    = diagnostic_fields (self w)
  /\ rng (snd (Solve w t y0_arg)) = rng w.
Proof.
  unfold solve, integrate.
  destruct (negb (_solved (self w))).
  - destruct (bind (odeint _ _ _) _); simpl; auto.
  - destruct (bind (all_ne_opt _ _ _) _) as [[|]|e]; simpl; auto.
    destruct (bind (odeint _ _ _) _); simpl; auto.
Qed.

(** A fresh integration yields a four-axis array whose last three axes
    are [nb_samples], [nb_groups], [nb_states], with no negative entry.
    (The integrator's output is an array of rationals; an output holding
    [nan], which [clip] would let through, is not represented.) *)
Lemma integrate_shape_nonneg (w : World) y0 t sol :
  fst (Integrate w y0 t) = Ok sol ->
  (exists T, shape sol =
     [T; nb_samples (self w); nb_groups (self w); nb_states (self w)])
  /\ Forall (fun x => 0 <= x) (data sol).
Proof.
  unfold integrate. simpl. intros H.
  apply InitFacts.bind_ok in H. destruct H as [raw [_ H]].
  apply InitFacts.bind_ok in H. destruct H as [r [Hr H]].
  inversion H; subst; clear H.
  unfold reshape_infer in Hr.
  destruct (prod_shape _ =? 0)%nat; [discriminate|].
  destruct (size raw mod _ =? 0)%nat; [|discriminate].
  inversion Hr; subst; clear Hr. simpl. split; [eauto|].
  apply Forall_forall. intros x Hx. apply in_map_iff in Hx.
  destruct Hx as [z [Hz _]]. subst x.
  destruct (Qle_bool 0 z) eqn:E.
  - apply Qle_bool_iff. exact E.
  - apply Qle_refl.
Qed.

(** The cached path: when neither test of line 261 holds, [solve] hands
    back [self.solution] and touches nothing. *)
Lemma solve_cached (w : World) t y0_arg :
  _solved (self w) = true ->
  all_ne_opt ne_mismatch t (_t (self w)) = Ok false ->
  all_ne ne_mismatch
    (match y0_arg with None => y0 (self w) | Some y => y end)
    (y0 (self w)) = Ok false ->
  Solve w t y0_arg = (Ok (solution (self w)), w).
Proof.
  intros Hs Ht Hy. unfold solve. rewrite Hs. simpl negb. cbv iota.
  rewrite Ht. simpl bind. rewrite Hy. reflexivity.
Qed.

(** With the four channels omitted [log_weights] is the Python number
    0, and the logging line that calls [log_weights.min()] raises. *)
Lemma posterior_weights_all_omitted y ra rm rs smoothing :
  is_ok (posterior_weights np_log gammaln softmax y None None None None
           ra rm rs smoothing) = false.
Proof.
  unfold posterior_weights.
  do 13 OdeFacts.step_bind.
  cbn [channel bind py_add].
  unfold py_div. destruct (Qeq_bool smoothing 0); reflexivity.
Qed.

Lemma posterior_frame (w : World) t o1 o2 o3 o4 ra rm rs ratio y0_arg sm :
  constructor_fields
    (self (snd (Posterior w t o1 o2 o3 o4 ra rm rs ratio y0_arg sm)))
  = constructor_fields (self w).
Proof.
  unfold calculate_sir_posterior. cbv zeta.
  destruct (bind (cast_obs o1) _) as [[[[a b] c] d]|e]; [|reflexivity].
  destruct (solve_frame w (NdArray (asarray t)) y0_arg) as [Hc _].
  destruct (Solve w (NdArray (asarray t)) y0_arg) as [[y|e] w1];
    simpl in Hc; [|exact Hc].
  destruct (posterior_weights _ _ _ _ _ _ _ _ _ _ _ _) as [[lw ws]|e];
    [|exact Hc].
  destruct (resample _ _ _ _ _) as [[rv|e] r]; [|exact Hc].
  simpl. rewrite <- Hc. reflexivity.
Qed.

(** C10. Neither method changes an attribute set by the constructor:
    [solve] writes only the solution cache, [calculate_sir_posterior]
    only the cache and the three diagnostic outputs.  This holds whether
    the call returns or raises. *)
Theorem C10_methods_preserve_constructor_fields :
  forall (w : World) t y0_arg o1 o2 o3 o4 ra rm rs ratio sm,
    constructor_fields (self (snd (Solve w t y0_arg)))
      = constructor_fields (self w)
    /\ diagnostic_fields (self (snd (Solve w t y0_arg)))
      = diagnostic_fields (self w)
    /\ constructor_fields
         (self (snd (Posterior w t o1 o2 o3 o4 ra rm rs ratio y0_arg sm)))
      = constructor_fields (self w).
Proof.
  intros. destruct (solve_frame w t y0_arg) as [H1 [H2 _]].
  split; [exact H1|]. split; [exact H2|]. apply posterior_frame.
Qed.

(** C7. With the four observation channels omitted the resampler never
    returns: whatever the integrator, the softmax and the random draw do,
    the call ends in an exception and the [weights] attribute keeps the
    value it had before the call. *)
Theorem C7_all_channels_omitted_raises :
  forall (w : World) t ra rm rs ratio y0_arg sm,
    is_ok (fst (Posterior w t None None None None ra rm rs ratio y0_arg sm))
      = false
    /\ diagnostic_fields
         (self (snd (Posterior w t None None None None
                       ra rm rs ratio y0_arg sm)))
       = diagnostic_fields (self w).
Proof.
  intros. unfold calculate_sir_posterior. cbv zeta. cbn [cast_obs bind].
  destruct (solve_frame w (NdArray (asarray t)) y0_arg) as [_ [Hd _]].
  destruct (Solve w (NdArray (asarray t)) y0_arg) as [[y|e] w1]; simpl in Hd;
    [|split; [reflexivity | exact Hd]].
  pose proof (posterior_weights_all_omitted y ra rm rs sm) as Hp.
  destruct (posterior_weights _ _ _ _ _ _ _ _ _ _ _ _) as [[lw ws]|e];
    [discriminate|].
  split; [reflexivity | exact Hd].
Qed.

End MethodFacts.

(** ** Arrays of one shape *)

Module ArrayFacts.

Lemma concat_chunks {A} k n (d : list A) :
  List.length d = (k * n)%nat -> List.concat (chunks k n d) = d.
Proof.
  revert d. induction k as [|k IH]; intros d H; simpl in *.
  - destruct d; [reflexivity | discriminate].
  - rewrite IH; [apply firstn_skipn|].
    rewrite length_skipn. lia.
Qed.

Lemma chunks_lengths {A} k n (d : list A) :
  List.length d = (k * n)%nat ->
  Forall (fun c => List.length c = n) (chunks k n d).
Proof.
  revert d. induction k as [|k IH]; intros d H; simpl in *; constructor.
  - rewrite length_firstn. lia.
  - apply IH. rewrite length_skipn. lia.
Qed.

Lemma broadcast_data_same {A} s (d : list A) :
  List.length d = prod_shape s -> broadcast_data s s d = d.
Proof.
  revert d. induction s as [|k s IH]; intros d H; simpl in *; [reflexivity|].
  rewrite Nat.eqb_refl.
  rewrite <- (concat_chunks k (prod_shape s) d H) at 2.
  f_equal. rewrite <- (map_id (chunks k (prod_shape s) d)) at 2.
  apply map_ext_in. intros c Hc. apply IH.
  pose proof (chunks_lengths k (prod_shape s) d H) as F.
  rewrite Forall_forall in F. apply F. exact Hc.
Qed.

Lemma bshape_rev_same l : bshape_rev l l = Some l.
Proof.
  induction l as [|x l IH]; simpl; [reflexivity|].
  rewrite IH, Nat.eqb_refl. reflexivity.
Qed.

Lemma broadcast_shapes_same s : broadcast_shapes s s = Some s.
Proof.
  unfold broadcast_shapes. rewrite bshape_rev_same. simpl.
  rewrite rev_involutive. reflexivity.
Qed.

Lemma broadcast_to_same {A} (a : ndarray A) :
  well_formed a -> broadcast_to a (shape a) = data a.
Proof.
  intros H. unfold broadcast_to, pad_shape.
  rewrite Nat.sub_diag. simpl. apply broadcast_data_same. exact H.
Qed.

(** An element-wise operation on two arrays of one shape. *)
Lemma map2_bc_same_shape {A B C} (f : A -> B -> C) a b :
  well_formed a -> well_formed b -> shape a = shape b ->
  map2_bc f a b =
    Ok (mk_ndarray (shape a)
          (map (fun p => f (fst p) (snd p)) (combine (data a) (data b)))).
Proof.
  intros Ha Hb Hs. unfold map2_bc. rewrite <- Hs, broadcast_shapes_same.
  rewrite (broadcast_to_same Ha).
  rewrite Hs at 2. rewrite (broadcast_to_same Hb). reflexivity.
Qed.

Lemma forallb_shared (u v : list Q) i x y :
  nth_error u i = Some x -> nth_error v i = Some y -> x == y ->
  forallb (fun b => b)
    (map (fun p => Qneb (fst p) (snd p)) (combine u v)) = false.
Proof.
  revert v i. induction u as [|a u IH]; intros v i Hu Hv E.
  - destruct i; discriminate.
  - destruct v as [|b v]; [destruct i; discriminate|].
    destruct i as [|i]; simpl in *.
    + inversion Hu; inversion Hv; subst.
      unfold Qneb. apply Qeq_bool_iff in E. rewrite E. reflexivity.
    + rewrite (IH v i Hu Hv E). apply andb_false_r.
Qed.

(** [np.all(a != b)] is false as soon as the two arrays, of one shape,
    agree at one position. *)
Lemma all_ne_shared mm (a b : ndarray Q) i x y :
  well_formed a -> well_formed b -> shape a = shape b ->
  nth_error (data a) i = Some x -> nth_error (data b) i = Some y ->
  x == y ->
  all_ne mm a b = Ok false.
Proof.
  intros Ha Hb Hs Hx Hy E. unfold all_ne.
  rewrite (map2_bc_same_shape Qneb Ha Hb Hs). unfold np_all. simpl.
  rewrite (forallb_shared _ _ _ Hx Hy E). reflexivity.
Qed.

End ArrayFacts.

(** ** The solution cache *)

Section CacheFacts.

Variable rng_state : Type.
Variable odeint :
  (ndarray Q -> Q -> result (ndarray Q)) -> ndarray Q -> ndarray Q ->
  result (ndarray Q).
Variable ne_mismatch : result bool.

(** An array grid of the cached shape that agrees with the cached grid at
    a single position is answered from the cache, however much the rest
    differs: line 261 asks for [np.all] of the differences. *)
Lemma stale_cache_on_partial_change (w : world rng_state)
    (t t0 : ndarray Q) i x y z :
  _solved (self w) = true ->
  _t (self w) = Some (NdArray t0) ->
  well_formed t -> well_formed t0 -> shape t = shape t0 ->
  nth_error (data t) i = Some x -> nth_error (data t0) i = Some y ->
  x == y ->
  well_formed (y0 (self w)) ->
  nth_error (data (y0 (self w))) 0 = Some z ->
  solve odeint ne_mismatch w (NdArray t) None = (Ok (solution (self w)), w).
Proof.
  intros Hs Ht Wt Wt0 Hsh Hx Hy E Wy Hz.
  apply solve_cached; [exact Hs | |].
  - rewrite Ht. simpl.
    apply ArrayFacts.all_ne_shared with (i := i) (x := x) (y := y);
      assumption.
  - apply ArrayFacts.all_ne_shared with (i := 0%nat) (x := z) (y := z);
      try assumption; [reflexivity | apply Qeq_refl].
Qed.

(** Two grids passed as Python lists are compared as wholes: a list that
    differs from the cached one anywhere sends the call to the
    integrator. *)
Lemma list_grid_change_detected (w : world rng_state) (a b : list Q) y0_arg :
  _solved (self w) = true ->
  _t (self w) = Some (PyList b) ->
  list_eqb a b = false ->
  solve odeint ne_mismatch w (PyList a) y0_arg =
    match integrate odeint w
            (match y0_arg with None => y0 (self w) | Some y => y end)
            (PyList a) with
    | (Ok sol, w1) =>
        (Ok (Some sol),
         set_self w1 (set_cache (self w) true (Some (PyList a)) (Some sol)))
    | (Raise e, w1) => (Raise e, w1)
    end.
Proof.
  intros Hs Ht Hne. unfold solve. rewrite Hs, Ht. simpl negb. cbv iota.
  cbn [all_ne_opt bind]. rewrite Hne. reflexivity.
Qed.


End CacheFacts.


(** What the stand-in run shows beside the theorem: the second call made
    no integration and kept the first grid; with grids passed as lists the
    change of the grid is noticed, the change of the initial state is not;
    and a call repeated with the very same arguments integrates again when
    its initial state differs everywhere from the stored [y0]. *)
Lemma cache_example_runs :
  let t012 := Examples.grid [0; 1; 2] in
  let t013 := Examples.grid [0; 1; 3] in
  let first := Examples.solve0 Examples.world0 t012 None in
  let second := Examples.solve0 (snd first) t013 None in
  let first_mixed :=
    Examples.solve0 Examples.world0 t012 (Some Examples.y_mixed) in
  let second_stored := Examples.solve0 (snd first_mixed) t012 None in
  let first_other :=
    Examples.solve0 Examples.world0 t012 (Some Examples.y_other) in
  let repeated :=
    Examples.solve0 (snd first_other) t012 (Some Examples.y_other) in
  let first_list :=
    Examples.solve0 Examples.world0 (PyList [0; 1; 2])
      (Some Examples.y_mixed) in
  let second_list := Examples.solve0 (snd first_list) (PyList [0; 1; 3]) None in
  let third_list := Examples.solve0 (snd first_list) (PyList [0; 1; 2]) None in
  (is_ok (fst first) = true
   /\ fst second = fst first
   /\ integrations (snd second) = [(Examples.y0_32, t012)]
   /\ _t (self (snd second)) = Some (NdArray t012))
  /\ (fst second_stored = fst first_mixed
      /\ fst first_mixed <> fst first
      /\ integrations (snd second_stored) = [(Examples.y_mixed, t012)])
  /\ integrations (snd repeated)
     = [(Examples.y_other, t012); (Examples.y_other, t012)]
  /\ (integrations (snd second_list)
      = [(Examples.y0_32, t013); (Examples.y_mixed, t012)]
      /\ fst third_list = fst first_list
      /\ integrations (snd third_list) = [(Examples.y_mixed, t012)]).
Proof.
  cbv zeta.
  split; [|split; [|split]].
  - split; [|split; [|split]]; vm_compute; reflexivity.
  - split; [|split]; [vm_compute; reflexivity | | vm_compute; reflexivity].
    vm_compute. intros H. discriminate H.
  - vm_compute. reflexivity.
  - split; [|split]; vm_compute; reflexivity.
Qed.

(** ** Resampling *)

Module ResampleFacts.






End ResampleFacts.

(** ** Conservation once the missing attributes are supplied *)

Module BroadcastFacts.

Lemma nth_concat_uniform {A} (n : nat) (pieces : list (list A)) i r x0 :
  Forall (fun p => List.length p = n) pieces ->
  (i < List.length pieces)%nat -> (r < n)%nat ->
  nth (i * n + r) (List.concat pieces) x0 = nth r (nth i pieces []) x0.
Proof.
  revert i. induction pieces as [|p ps IH]; intros i F Hi Hr; simpl in *.
  - lia.
  - inversion F as [|? ? Hp F']; subst.
    destruct i as [|i]; simpl.
    + rewrite app_nth1 by lia. reflexivity.
    + rewrite app_nth2 by lia.
      replace (List.length p + i * List.length p + r - List.length p)%nat
        with (i * List.length p + r)%nat by lia.
      apply IH; [exact F' | lia | exact Hr].
Qed.

Lemma nth_chunks {A} k n (d : list A) i :
  (i < k)%nat ->
  nth i (chunks k n d) [] = firstn n (skipn (i * n) d).
Proof.
  revert d i. induction k as [|k IH]; intros d i Hi; [lia|].
  destruct i as [|i]; simpl; [reflexivity|].
  rewrite IH by lia. rewrite skipn_skipn. f_equal. f_equal. lia.
Qed.

Lemma chunks_length {A} k n (d : list A) : List.length (chunks k n d) = k.
Proof. revert d. induction k; intros; simpl; [reflexivity | f_equal; auto]. Qed.

Lemma nth_firstn_skipn {A} n m (d : list A) r x0 :
  (r < n)%nat -> nth r (firstn n (skipn m d)) x0 = nth (m + r) d x0.
Proof.
  intros Hr. rewrite nth_firstn.
  destruct (Nat.ltb_spec r n); [|lia].
  rewrite nth_skipn. reflexivity.
Qed.

Lemma ravel_lt s idx : valid_index s idx -> (ravel s idx < prod_shape s)%nat.
Proof.
  intros V. induction V as [|d i s idx Hi V IH]; simpl; [lia|]. nia.
Qed.

Lemma stretches_length sa so : stretches_to sa so -> List.length sa = List.length so.
Proof. intros H. induction H; simpl; congruence. Qed.

Lemma bidx_valid sa so idx :
  stretches_to sa so -> valid_index so idx -> valid_index sa (bidx sa idx).
Proof.
  intros C. revert idx. induction C as [|a o sa so Hao C IH]; intros idx V.
  - inversion V; subst. constructor.
  - inversion V as [|? i ? idx' Hi V']; subst. simpl. constructor.
    + destruct (Nat.eqb_spec a 1); [lia|]. destruct Hao; [lia | contradiction].
    + apply IH. exact V'.
Qed.

Lemma concat_length_uniform {A} n (l : list (list A)) :
  Forall (fun p => List.length p = n) l ->
  List.length (List.concat l) = (List.length l * n)%nat.
Proof.
  intros F. induction F as [|p l Hp F IH]; simpl; [reflexivity|].
  rewrite length_app, IH, Hp. reflexivity.
Qed.

Lemma broadcast_data_length {A} sa so (d : list A) :
  stretches_to sa so -> List.length d = prod_shape sa ->
  List.length (broadcast_data sa so d) = prod_shape so.
Proof.
  intros C. revert d. induction C as [|a o sa so Hao C IH]; intros d Hd.
  - exact Hd.
  - simpl in *. destruct (Nat.eqb_spec a o) as [ -> | Hne].
    + rewrite (concat_length_uniform (n := prod_shape so)).
      * rewrite length_map, chunks_length. reflexivity.
      * apply Forall_forall. intros p Hp. apply in_map_iff in Hp.
        destruct Hp as [c [Ec Hc]]; rewrite <- Ec in *; clear Ec. apply IH.
        pose proof (ArrayFacts.chunks_lengths o (prod_shape sa) d Hd) as F.
        rewrite Forall_forall in F. apply F. exact Hc.
    + destruct Hao as [ -> | -> ]; [contradiction|].
      rewrite (concat_length_uniform (n := prod_shape so)).
      * rewrite repeat_length. reflexivity.
      * apply Forall_forall. intros p Hp. apply repeat_spec in Hp. subst p.
        apply IH. lia.
Qed.

(** Reading the broadcast of [d] at [idx] reads [d] at the index with the
    stretched axes set to 0. *)
Lemma broadcast_data_nth {A} sa so (d : list A) idx x0 :
  stretches_to sa so -> List.length d = prod_shape sa ->
  valid_index so idx ->
  nth (ravel so idx) (broadcast_data sa so d) x0
  = nth (ravel sa (bidx sa idx)) d x0.
Proof.
  intros C. revert d idx.
  induction C as [|a o sa so Hao C IH]; intros d idx Hd V.
  - inversion V; subst. reflexivity.
  - inversion V as [|? i ? idx' Hi V']; subst.
    pose proof (ravel_lt V') as Hr.
    pose proof (ravel_lt (bidx_valid C V')) as Hr'.
    simpl in *. destruct (Nat.eqb_spec a o) as [ -> | Hne].
    + rewrite (nth_concat_uniform (n := prod_shape so)); try assumption.
      * rewrite (nth_indep _ [] (broadcast_data sa so []))
          by (rewrite length_map, chunks_length; exact Hi).
        rewrite map_nth, nth_chunks by exact Hi.
        rewrite IH; try assumption.
        -- rewrite nth_firstn_skipn by exact Hr'.
           destruct (Nat.eqb_spec o 1) as [ -> | _ ]; [|reflexivity].
           replace i with 0%nat by lia. reflexivity.
        -- rewrite length_firstn, length_skipn. nia.
      * apply Forall_forall. intros p Hp. apply in_map_iff in Hp.
        destruct Hp as [c [Ec Hc]]; rewrite <- Ec in *; clear Ec. apply broadcast_data_length; [exact C|].
        pose proof (ArrayFacts.chunks_lengths o (prod_shape sa) d Hd) as F.
        rewrite Forall_forall in F. apply F. exact Hc.
      * rewrite length_map, chunks_length. exact Hi.
    + destruct Hao as [ -> | -> ]; [contradiction|]. simpl.
      rewrite (nth_concat_uniform (n := prod_shape so)); try assumption.
      * rewrite nth_repeat_lt by exact Hi. apply IH; [lia | exact V'].
      * apply Forall_forall. intros p Hp. apply repeat_spec in Hp. subst p.
        apply broadcast_data_length; [exact C | lia].
      * rewrite repeat_length. exact Hi.
Qed.

Lemma In_firstn {A} n (l : list A) x : In x (firstn n l) -> In x l.
Proof.
  intros H. rewrite <- (firstn_skipn n l). apply in_or_app. left. exact H.
Qed.

Lemma In_skipn {A} n (l : list A) x : In x (skipn n l) -> In x l.
Proof.
  intros H. rewrite <- (firstn_skipn n l). apply in_or_app. right. exact H.
Qed.

Lemma broadcast_data_In {A} sa so (d : list A) x :
  In x (broadcast_data sa so d) -> In x d.
Proof.
  revert so d. induction sa as [|a sa IH]; intros so d H; [exact H|].
  destruct so as [|o so]; [exact H|]. simpl in H.
  destruct (a =? o)%nat.
  - apply in_concat in H. destruct H as [p [Hp Hx]].
    apply in_map_iff in Hp. destruct Hp as [c [Ec Hc]]; rewrite <- Ec in *; clear Ec.
    apply IH in Hx. clear IH. revert d Hc.
    generalize (prod_shape sa) as n. induction a as [|a IHa]; intros n d Hc.
    + destruct Hc.
    + simpl in Hc. destruct Hc as [<-|Hc].
      * apply (In_firstn n). exact Hx.
      * apply (In_skipn n). apply (IHa n). exact Hc.
  - apply in_concat in H. destruct H as [p [Hp Hx]].
    apply repeat_spec in Hp. subst p. apply IH in Hx. exact Hx.
Qed.

End BroadcastFacts.

Module GridFacts.
Import BroadcastFacts.

Lemma bidx_idem sa so idx :
  stretches_to sa so -> bidx sa (bidx so idx) = bidx sa idx.
Proof.
  intros C. revert idx. induction C as [|a o sa so Hao C IH]; intros idx.
  - reflexivity.
  - destruct idx as [|i idx]; simpl; [reflexivity|].
    rewrite IH. f_equal.
    destruct (Nat.eqb_spec a 1) as [Ha|Ha]; [reflexivity|].
    destruct (Nat.eqb_spec o 1) as [Ho|Ho]; [|reflexivity].
    destruct Hao; lia.
Qed.

Lemma nth_map_combine {A B C} (f : A -> B -> C) u v k a0 b0 c0 :
  (k < List.length u)%nat -> List.length u = List.length v ->
  nth k (map (fun p => f (fst p) (snd p)) (combine u v)) c0
  = f (nth k u a0) (nth k v b0).
Proof.
  revert v k. induction u as [|x u IH]; intros v k Hk Hl; simpl in *; [lia|].
  destruct v as [|y v]; [discriminate|]. simpl.
  destruct k as [|k]; [reflexivity|]. apply IH; simpl in *; lia.
Qed.

Lemma prod_pad n s : prod_shape (pad_shape n s) = prod_shape s.
Proof.
  unfold pad_shape. induction (n - List.length s)%nat; simpl; [reflexivity|lia].
Qed.

(** Reading an element-wise result at a valid index. *)
Lemma map2_bc_nth (f : Q -> Q -> Q) (a b : ndarray Q) s :
  broadcast_shapes (shape a) (shape b) = Some s ->
  stretches_to (pad_shape (List.length s) (shape a)) s ->
  stretches_to (pad_shape (List.length s) (shape b)) s ->
  well_formed a -> well_formed b ->
  exists c,
    map2_bc f a b = Ok c /\ shape c = s /\ well_formed c /\
    (forall idx, valid_index s idx ->
     nth (ravel s idx) (data c) 0
     = f (nth (ravel (pad_shape (List.length s) (shape a))
                 (bidx (pad_shape (List.length s) (shape a)) idx)) (data a) 0)
         (nth (ravel (pad_shape (List.length s) (shape b))
                 (bidx (pad_shape (List.length s) (shape b)) idx)) (data b) 0)).
Proof.
  intros Hs Ca Cb Wa Wb. unfold map2_bc. rewrite Hs.
  eexists. split; [reflexivity|]. split; [reflexivity|].
  assert (La : List.length (broadcast_to a s) = prod_shape s).
  { apply broadcast_data_length; [exact Ca|]. rewrite prod_pad. exact Wa. }
  assert (Lb : List.length (broadcast_to b s) = prod_shape s).
  { apply broadcast_data_length; [exact Cb|]. rewrite prod_pad. exact Wb. }
  split.
  - unfold well_formed, size. simpl.
    rewrite length_map, length_combine, La, Lb. lia.
  - intros idx V. simpl.
    rewrite (nth_map_combine f _ _ 0 0 0);
      [| rewrite La; apply ravel_lt; exact V | congruence].
    unfold broadcast_to.
    rewrite !broadcast_data_nth; try assumption;
      try (rewrite prod_pad; assumption).
    reflexivity.
Qed.

Ltac crunch_eqb :=
  repeat match goal with
         | |- context [(?x =? ?y)%nat] =>
             destruct (Nat.eqb_spec x y); cbn [option_map rev app bshape_rev]
         end.

Ltac solve_stretch :=
  unfold pad_shape; simpl;
  repeat first [apply Forall2_nil | apply Forall2_cons];
  first [left; reflexivity | right; reflexivity | idtac].

Lemma fits_join S G sa sb :
  fits S G sa -> fits S G sb ->
  exists s,
    broadcast_shapes sa sb = Some s /\ fits S G s
    /\ (sa = [S; G] \/ sb = [S; G] -> s = [S; G])
    /\ ((s = [] /\ sa = [] /\ sb = [])
        \/ (List.length s = 2%nat
            /\ stretches_to (pad_shape 2 sa) s
            /\ stretches_to (pad_shape 2 sb) s)).
Proof.
  intros [->|[a [b [-> [Ha Hb]]]]] [->|[a' [b' [-> [Ha' Hb']]]]].
  - exists []. split; [reflexivity|]. split; [left; reflexivity|].
    split; [intros [H|H]; discriminate H|]. left. auto.
  - exists [a'; b']. split; [reflexivity|].
    split; [right; exists a', b'; auto|]. split.
    + intros [H|H]; [discriminate H | exact H].
    + right. split; [reflexivity|]. split; solve_stretch.
  - exists [a; b]. split; [reflexivity|].
    split; [right; exists a, b; auto|]. split.
    + intros [H|H]; [exact H | discriminate H].
    + right. split; [reflexivity|]. split; solve_stretch.
  - unfold broadcast_shapes. cbn [option_map rev app bshape_rev].
    destruct Ha as [ -> | -> ], Hb as [ -> | -> ], Ha' as [ -> | -> ], Hb' as [ -> | -> ];
      crunch_eqb; subst; try congruence;
      (eexists; split; [reflexivity|]; split;
       [right; eexists; eexists; split; [reflexivity|]; split; auto|];
       split;
       [intros [H|H]; inversion H; subst; reflexivity
       | right; split; [reflexivity|]; split; solve_stretch]).
Qed.

End GridFacts.

Module DenoteFacts.
Import BroadcastFacts GridFacts.

Lemma fits_valid S G s i j :
  fits S G s -> List.length s = 2%nat -> (i < S)%nat -> (j < G)%nat ->
  valid_index s (bidx s [i; j]).
Proof.
  intros [->|[a [b [-> [Ha Hb]]]]] Hl Hi Hj; [discriminate|].
  simpl. constructor; [|constructor; [|constructor]].
  - destruct (Nat.eqb_spec a 1); lia.
  - destruct (Nat.eqb_spec b 1); lia.
Qed.

Lemma pad2_len2 s : List.length s = 2%nat -> pad_shape 2 s = s.
Proof. intros H. unfold pad_shape. rewrite H. reflexivity. Qed.

Lemma map2_bc_cell S G (f : Q -> Q -> Q) a b :
  well_formed a -> well_formed b ->
  fits S G (shape a) -> fits S G (shape b) ->
  exists c,
    map2_bc f a b = Ok c /\ well_formed c /\ fits S G (shape c)
    /\ (shape a = [S; G] \/ shape b = [S; G] -> shape c = [S; G])
    /\ forall i j, (i < S)%nat -> (j < G)%nat ->
         cell c i j = f (cell a i j) (cell b i j).
Proof.
  intros Wa Wb Fa Fb.
  destruct (fits_join Fa Fb) as [s [Hs [Fs [Hg Hcase]]]].
  destruct Hcase as [[-> [Ea Eb]]|[Hl [Ca Cb]]].
  - destruct (@map2_bc_nth f a b [] Hs) as [c [Ec [Sc [Wc Hn]]]];
      try assumption;
      try (simpl; rewrite ?Ea, ?Eb; constructor).
    exists c. split; [exact Ec|]. split; [exact Wc|].
    split; [rewrite Sc; exact Fs|]. split; [rewrite Sc; exact Hg|].
    intros i j _ _. unfold cell. rewrite Sc, Ea, Eb.
    specialize (Hn [] (Forall2_nil _)). simpl in Hn. rewrite Ea, Eb in Hn.
    simpl. exact Hn.
  - destruct (@map2_bc_nth f a b s Hs) as [c [Ec [Sc [Wc Hn]]]];
      try assumption; try (rewrite Hl; assumption).
    exists c. split; [exact Ec|]. split; [exact Wc|].
    split; [rewrite Sc; exact Fs|]. split; [rewrite Sc; exact Hg|].
    intros i j Hi Hj. unfold cell at 1. rewrite Sc, (@pad2_len2 s Hl).
    rewrite (Hn _ (@fits_valid S G s i j Fs Hl Hi Hj)). rewrite Hl.
    rewrite !bidx_idem by assumption. reflexivity.
Qed.

Lemma denotes_lift2 S G f bx b_y x y vx vy :
  denotes S G bx x vx -> denotes S G b_y y vy ->
  denotes S G (bx || b_y) (lift2 f x y) (fun i j => f (vx i j) (vy i j)).
Proof.
  intros [a [-> [Wa [Fa [Ga Ca]]]]] [b [-> [Wb [Fb [Gb Cb]]]]].
  destruct (@map2_bc_cell S G f a b Wa Wb Fa Fb) as [c [Ec [Wc [Fc [Gc Cc]]]]].
  exists c. simpl. split; [exact Ec|]. split; [exact Wc|]. split; [exact Fc|].
  split.
  - intros H. apply Gc. apply orb_true_iff in H. destruct H as [H|H]; auto.
  - intros i j Hi Hj. rewrite Cc, Ca, Cb by assumption. reflexivity.
Qed.

Lemma denotes_num S G q : denotes S G false (num q) (fun _ _ => q).
Proof.
  exists (scalar q). split; [reflexivity|]. split; [reflexivity|].
  split; [left; reflexivity|]. split; [discriminate|]. reflexivity.
Qed.

Lemma denotes_param S G a :
  well_formed a -> fits S G (shape a) -> denotes S G false (Ok a) (cell a).
Proof.
  intros W F. exists a. split; [reflexivity|]. split; [exact W|].
  split; [exact F|]. split; [discriminate|]. reflexivity.
Qed.

Lemma denotes_grid_array S G a :
  well_formed a -> shape a = [S; G] -> denotes S G true (Ok a) (cell a).
Proof.
  intros W E. exists a. split; [reflexivity|]. split; [exact W|]. split.
  - right. exists S, G. auto.
  - split; [intros _; exact E | reflexivity].
Qed.

End DenoteFacts.

Module SliceFacts.
Import BroadcastFacts GridFacts DenoteFacts.

Lemma vadd_length u v :
  List.length (vadd u v) = Nat.min (List.length u) (List.length v).
Proof. unfold vadd. rewrite length_map, length_combine. reflexivity. Qed.

Lemma fold_vadd_length n rows :
  Forall (fun r : list Q => List.length r = n) rows ->
  List.length (fold_right vadd (repeat 0 n) rows) = n.
Proof.
  intros F. induction F as [|r rows Hr F IH]; simpl.
  - apply repeat_length.
  - rewrite vadd_length, IH, Hr. apply Nat.min_id.
Qed.

Lemma flat_map_length_uniform {A B} (f : A -> list B) n l :
  (forall x, In x l -> List.length (f x) = n) ->
  List.length (flat_map f l) = (List.length l * n)%nat.
Proof.
  intros H. rewrite flat_map_concat_map.
  rewrite BroadcastFacts.concat_length_uniform with (n := n).
  - rewrite length_map. reflexivity.
  - apply Forall_forall. intros p Hp. apply in_map_iff in Hp.
    destruct Hp as [x [E Hx]]. rewrite <- E. apply H. exact Hx.
Qed.

Lemma in_chunks_length {A} k n (d : list A) c :
  List.length d = (k * n)%nat -> In c (chunks k n d) -> List.length c = n.
Proof.
  intros Hd Hc. pose proof (ArrayFacts.chunks_lengths k n d Hd) as F.
  rewrite Forall_forall in F. apply F. exact Hc.
Qed.

(** [np.sum(a, axis=1, keepdims=True)] of a grid array is a column. *)
Lemma sum_axis1_grid S G a :
  on_grid S G a ->
  exists c, sum_axis true 1 a = Ok c /\ well_formed c /\ shape c = [S; 1%nat].
Proof.
  intros [W E]. unfold sum_axis. rewrite E. cbn [firstn skipn].
  eexists. split; [reflexivity|]. split; [|reflexivity].
  unfold well_formed, size in *. rewrite E in W. simpl in *.
  rewrite flat_map_length_uniform with (n := 1%nat).
  - rewrite BroadcastFacts.chunks_length. lia.
  - intros blk Hb. apply (@fold_vadd_length 1%nat).
    apply Forall_forall. intros r Hr.
    apply (in_chunks_length G 1 blk); [|exact Hr].
    apply (in_chunks_length (S * 1) (G * 1) (data a)); [lia | exact Hb].
Qed.

Lemma denotes_sum1 S G x vx :
  denotes S G true x vx -> exists v, denotes S G false (sum1 x) v.
Proof.
  intros [a [-> [W [F [Gd C]]]]].
  destruct (@sum_axis1_grid S G a (conj W (Gd eq_refl))) as [c [Ec [Wc Sc]]].
  exists (cell c). exists c. simpl. split; [exact Ec|]. split; [exact Wc|].
  split; [right; exists S, 1%nat; auto|].
  split; [discriminate | reflexivity].
Qed.

(** [y[:, :, k]] of a [(S, G, ns)] array is a grid array. *)
Lemma index_axis2_grid S G ns (y : ndarray Q) k :
  well_formed y -> shape y = [S; G; ns] -> (k < ns)%nat ->
  exists c, index_axis 2 y k = Ok c /\ on_grid S G c.
Proof.
  intros W E Hk. unfold index_axis. rewrite E. cbn [firstn skipn].
  destruct (Nat.ltb_spec k ns) as [_|]; [|lia].
  eexists. split; [reflexivity|]. split; [|reflexivity].
  unfold well_formed, size in *. rewrite E in W.
  cbn [prod_shape fold_right app data shape] in *.
  rewrite flat_map_length_uniform with (n := 1%nat).
  - rewrite BroadcastFacts.chunks_length. lia.
  - intros blk Hb.
    assert (Lb : List.length blk = (ns * 1)%nat).
    { apply (in_chunks_length (S * (G * 1)) (ns * 1) (data y)); [lia | exact Hb]. }
    rewrite length_firstn, length_skipn. lia.
Qed.

Lemma get_seird_grid m (y : ndarray Q) :
  size y = (nb_samples m * nb_groups m * nb_states m)%nat ->
  (14 <= nb_states m)%nat ->
  exists c,
    _get_seird_from_flat_y m y = Ok c
    /\ Forall (on_grid (nb_samples m) (nb_groups m))
         [c_s c; c_e c; c_i_as c; c_i_m c; c_i_s c; c_i_i_h c; c_i_i_icu c;
          c_i_h c; c_i_icu c].
Proof.
  intros Hy Hn. unfold _get_seird_from_flat_y.
  assert (Er : reshape y [nb_samples m; nb_groups m; nb_states m]
               = Ok (mk_ndarray [nb_samples m; nb_groups m; nb_states m] (data y))).
  { unfold reshape. simpl.
    destruct (Nat.eqb_spec (nb_samples m * (nb_groups m * (nb_states m * 1))) (size y));
      [reflexivity | lia]. }
  rewrite Er. cbn [bind].
  set (yr := mk_ndarray [nb_samples m; nb_groups m; nb_states m] (data y)).
  assert (Wr : well_formed yr).
  { unfold well_formed, yr, size in *. simpl. lia. }
  assert (Hsl : forall k, (k < 14)%nat ->
            exists c, index_axis 2 yr k = Ok c
                      /\ on_grid (nb_samples m) (nb_groups m) c).
  { intros k Hk. apply (@index_axis2_grid _ _ (nb_states m)); [exact Wr | reflexivity | lia]. }
  destruct (Hsl 0%nat) as [a0 [E0 G0]]; [lia|].
  destruct (Hsl 1%nat) as [a1 [E1 G1]]; [lia|].
  destruct (Hsl 2%nat) as [a2 [E2 G2]]; [lia|].
  destruct (Hsl 3%nat) as [a3 [E3 G3]]; [lia|].
  destruct (Hsl 4%nat) as [a4 [E4 G4]]; [lia|].
  destruct (Hsl 5%nat) as [a5 [E5 G5]]; [lia|].
  destruct (Hsl 6%nat) as [a6 [E6 G6]]; [lia|].
  destruct (Hsl 7%nat) as [a7 [E7 G7]]; [lia|].
  destruct (Hsl 8%nat) as [a8 [E8 G8]]; [lia|].
  destruct (Hsl 9%nat) as [a9 [E9 G9]]; [lia|].
  destruct (Hsl 10%nat) as [a10 [E10 G10]]; [lia|].
  destruct (Hsl 11%nat) as [a11 [E11 G11]]; [lia|].
  destruct (Hsl 12%nat) as [a12 [E12 G12]]; [lia|].
  destruct (Hsl 13%nat) as [a13 [E13 G13]]; [lia|].
  rewrite E0, E1, E2, E3, E4, E5, E6, E7, E8, E9, E10, E11, E12, E13.
  cbn [bind]. eexists. split; [reflexivity|]. simpl.
  repeat (constructor; [assumption|]). constructor.
Qed.

End SliceFacts.

Module ConservationFacts.
Import BroadcastFacts GridFacts DenoteFacts SliceFacts.

Lemma denotes_ok S G b r v :
  denotes S G b r v -> exists a, r = Ok a /\ denotes S G b (Ok a) v.
Proof.
  intros [a [E H]]. exists a. split; [exact E|]. exists a. split; [reflexivity | exact H].
Qed.

Lemma denotes_on_grid S G b a v :
  denotes S G b (Ok a) v -> b = true ->
  on_grid S G a /\ forall i j, (i < S)%nat -> (j < G)%nat -> cell a i j = v i j.
Proof.
  intros [a' [E [W [F [Gd C]]]]] Hb. inversion E; subst a'.
  split; [split; [exact W | exact (Gd Hb)] | exact C].
Qed.

Lemma denotes_of_broadcastable S G a :
  broadcastable S G a -> denotes S G false (Ok a) (cell a).
Proof. intros [W F]. apply denotes_param; assumption. Qed.

Lemma denotes_of_grid S G a :
  on_grid S G a -> denotes S G true (Ok a) (cell a).
Proof. intros [W E]. apply denotes_grid_array; assumption. Qed.

Ltac solve_denotes :=
  repeat first
    [ eassumption
    | apply denotes_num
    | eapply denotes_lift2 ].

Ltac step_term a D :=
  lazymatch goal with
  | |- exists _, bind ?e _ = Ok _ /\ _ =>
      let H := fresh "H" in
      let E := fresh "E" in
      eassert (H : denotes _ _ _ e _) by solve_denotes;
      apply denotes_ok in H; destruct H as [a [E D]];
      rewrite E; cbn [bind]; clear E
  end.

Lemma ode_terms_conserve m y t :
  ode_ready m t ->
  size y = (nb_samples m * nb_groups m * nb_states m)%nat ->
  exists terms,
    _ode_terms m y t = Ok terms
    /\ List.length terms = 14%nat
    /\ Forall (on_grid (nb_samples m) (nb_groups m)) terms
    /\ forall i j, (i < nb_samples m)%nat -> (j < nb_groups m)%nat ->
         qsum (map (fun a => cell a i j) terms) == 0.
Proof.
  intros [_ [Hns [Hp [[f [Ef Bf]] [[g [Eg Bg]] [inf [Ei Bi]]]]]]] Hy.
  destruct (@get_seird_grid m y Hy Hns) as [c [Ec Hc]].
  unfold _ode_terms. rewrite Ec. cbn [bind]. cbv zeta.
  rewrite Ef, Eg, Ei.
  repeat match goal with
         | H : Forall _ (_ :: _) |- _ =>
             let X := fresh "X" in
             apply Forall_cons_iff in H; destruct H as [X H]
         end.
  repeat match goal with
         | H : on_grid _ _ _ |- _ => apply denotes_of_grid in H
         | H : broadcastable _ _ _ |- _ => apply denotes_of_broadcastable in H
         end.
  step_term inf_s_prop D1.
  step_term time_i_to_h D2.
  step_term time_i_to_icu D3.
  match goal with
  | |- context [sum1 ?x] =>
      let H := fresh "H" in
      eassert (H : denotes _ _ _ x _) by solve_denotes;
      destruct H as [sa [Esa [Wsa [Fsa [Gsa Csa]]]]];
      assert (Dsum : exists v, denotes (nb_samples m) (nb_groups m) false (sum1 x) v)
        by (apply denotes_sum1 with (vx := fun i j => cell sa i j);
            exists sa; repeat split; auto);
      destruct Dsum as [vs Dsum]; apply denotes_ok in Dsum;
      destruct Dsum as [sm [Esm Dsm]]; rewrite Esm; clear Esm Esa
  end.
  step_term ds T1. step_term de T2. step_term di_as T3. step_term di_m T4.
  step_term di_s T5. step_term di_i_h T6. step_term di_i_icu T7.
  step_term di_h T8. step_term di_icu T9. step_term dr_as T10.
  step_term dr_m T11. step_term dr_h T12. step_term dr_icu T13.
  step_term dd_icu T14.
  eexists. split; [reflexivity|]. split; [reflexivity|].
  apply denotes_on_grid in T1, T2, T3, T4, T5, T6, T7, T8, T9, T10, T11, T12,
    T13, T14; try reflexivity.
  destruct T1 as [G1 C1], T2 as [G2 C2], T3 as [G3 C3], T4 as [G4 C4],
    T5 as [G5 C5], T6 as [G6 C6], T7 as [G7 C7], T8 as [G8 C8],
    T9 as [G9 C9], T10 as [G10 C10], T11 as [G11 C11], T12 as [G12 C12],
    T13 as [G13 C13], T14 as [G14 C14].
  split; [repeat (constructor; [assumption|]); constructor|].
  intros i j Hi Hj. cbn [map qsum fold_right].
  rewrite C1, C2, C3, C4, C5, C6, C7, C8, C9, C10, C11, C12, C13, C14
    by assumption.
  unfold Qdiv. ring.
Qed.

End ConservationFacts.

Module AssemblyFacts.
Import BroadcastFacts GridFacts DenoteFacts SliceFacts ConservationFacts.

Lemma cell_on_grid S G a i j :
  on_grid S G a -> (i < S)%nat -> (j < G)%nat ->
  cell a i j = nth (i * G + j) (data a) 0.
Proof.
  intros [_ E] Hi Hj. unfold cell. rewrite E. unfold pad_shape. simpl.
  f_equal.
  destruct (Nat.eqb_spec S 1), (Nat.eqb_spec G 1); nia.
Qed.

Lemma heads_eq (cols : list (list Q)) n :
  Forall (fun c => List.length c = S n) cols ->
  flat_map (fun c => firstn 1 c) cols = map (fun c => nth 0 c 0) cols.
Proof.
  intros F. induction F as [|c cols Hc F IH]; [reflexivity|].
  cbn [flat_map map]. rewrite IH.
  destruct c as [|x c]; [discriminate|]. reflexivity.
Qed.

Lemma tails_length (cols : list (list Q)) n :
  Forall (fun c => List.length c = S n) cols ->
  Forall (fun c => List.length c = n) (map (@tl Q) cols).
Proof.
  intros F. induction F as [|c cols Hc F IH]; simpl; constructor; [|exact IH].
  destruct c; simpl in *; [discriminate | lia].
Qed.

(** Chunk [c] of the interleaved vector holds element [c] of every
    column. *)
Lemma zip_last_chunk N : forall (cols : list (list Q)) c,
  Forall (fun col => List.length col = N) cols -> (c < N)%nat ->
  firstn (List.length cols) (skipn (c * List.length cols) (zip_last cols N))
  = map (fun col => nth c col 0) cols.
Proof.
  induction N as [|n IH]; intros cols c F Hc; [lia|].
  cbn [zip_last]. rewrite (heads_eq F).
  destruct c as [|c].
  - simpl. rewrite firstn_app, length_map, Nat.sub_diag. simpl.
    rewrite app_nil_r. apply firstn_all2. rewrite length_map. lia.
  - rewrite skipn_app, length_map.
    rewrite skipn_all2 by (rewrite length_map; simpl; lia).
    simpl app.
    replace (List.length cols + c * List.length cols - List.length cols)%nat
      with (c * List.length cols)%nat by lia.
    assert (Hc' : (c < n)%nat) by lia.
    pose proof (IH (map (@tl Q) cols) c (tails_length F) Hc') as R.
    rewrite length_map in R. rewrite R.
    rewrite map_map. apply map_ext. intros col.
    destruct col; [destruct c; reflexivity | reflexivity].
Qed.

Lemma zip_last_length N : forall (cols : list (list Q)),
  Forall (fun col => List.length col = N) cols ->
  List.length (zip_last cols N) = (N * List.length cols)%nat.
Proof.
  induction N as [|n IH]; intros cols F; [reflexivity|].
  cbn [zip_last]. rewrite (heads_eq F), length_app, length_map.
  rewrite (IH _ (tails_length F)), length_map. lia.
Qed.

Lemma reshape_each_grid S G terms :
  Forall (on_grid S G) terms ->
  reshape_each terms [S; G; 1%nat]
  = Ok (map (fun a => mk_ndarray [S; G; 1%nat] (data a)) terms).
Proof.
  intros F. induction F as [|a terms [W E] F IH]; [reflexivity|].
  simpl reshape_each. rewrite IH. unfold reshape.
  unfold well_formed in W. rewrite E in W. simpl in W.
  destruct (Nat.eqb_spec (prod_shape [S; G; 1%nat]) (size a)) as [_|Hne];
    [reflexivity | simpl in Hne; lia].
Qed.

Lemma forallb_same_shape s (terms : list (ndarray Q)) (a0 : ndarray Q) :
  forallb (fun a : ndarray Q => shape_eqb (shape a) (shape (mk_ndarray s (data a0))))
    (map (fun a : ndarray Q => mk_ndarray s (data a)) terms) = true.
Proof.
  induction terms as [|a terms IH]; [reflexivity|].
  simpl. rewrite ClassifierFacts.shape_eqb_refl. exact IH.
Qed.

Lemma concatenate_grid S G terms :
  terms <> [] ->
  concatenate_last
    (map (fun a : ndarray Q => mk_ndarray [S; G; 1%nat] (data a)) terms)
  = Ok (mk_ndarray [S; G; List.length terms]
          (zip_last (map (@data Q) terms) (prod_shape [G; S]))).
Proof.
  intros Hne. destruct terms as [|a0 rest]; [contradiction|].
  pose proof (forallb_same_shape [S; G; 1%nat] (a0 :: rest) a0) as Hf.
  unfold concatenate_last. cbn [map] in *. rewrite Hf.
  cbn [shape rev app data List.length]. rewrite length_map, map_map.
  reflexivity.
Qed.

(** Once the two attributes are present, [_ode] returns a vector of 14
    values per cell, and the 14 values of every cell add up to zero. *)
Theorem ode_conserves_when_attrs_supplied m y t :
  ode_ready m t ->
  size y = (nb_samples m * nb_groups m * nb_states m)%nat ->
  exists d,
    _ode m y t = Ok d
    /\ shape d = [(nb_samples m * nb_groups m * 14)%nat]
    /\ forall i j, (i < nb_samples m)%nat -> (j < nb_groups m)%nat ->
         qsum (firstn 14 (skipn ((i * nb_groups m + j) * 14) (data d))) == 0.
Proof.
  intros Hr Hy.
  destruct (@ode_terms_conserve m y t Hr Hy) as [terms [Et [Hl [Fg Hsum]]]].
  assert (Hne : terms <> []) by (intros ->; discriminate Hl).
  assert (Fc : Forall (fun col => List.length col
                                  = prod_shape [nb_groups m; nb_samples m])
                 (map (@data Q) terms)).
  { apply Forall_forall. intros col Hc. apply in_map_iff in Hc.
    destruct Hc as [a [Ea Ha]]. rewrite <- Ea.
    rewrite Forall_forall in Fg. destruct (Fg a Ha) as [W E].
    unfold well_formed, size in W. rewrite W, E. simpl. lia. }
  assert (HN : prod_shape [nb_groups m; nb_samples m]
               = (nb_samples m * nb_groups m)%nat) by (simpl; lia).
  remember (prod_shape [nb_groups m; nb_samples m]) as N eqn:EN.
  unfold _ode. rewrite Et. cbn [bind].
  rewrite (@reshape_each_grid _ _ terms Fg). cbn [bind].
  rewrite (@concatenate_grid (nb_samples m) (nb_groups m) terms Hne).
  rewrite <- EN. cbn [bind].
  unfold reshape. cbn [prod_shape fold_right].
  rewrite Nat.mul_1_r, Nat.eqb_refl.
  eexists. split; [reflexivity|]. cbn [shape data]. split.
  - unfold size. cbn [data]. rewrite (@zip_last_length _ _ Fc), length_map, Hl.
    f_equal. lia.
  - intros i j Hi Hj.
    pose proof (@zip_last_chunk _ (map (@data Q) terms) (i * nb_groups m + j) Fc)
      as Hz.
    rewrite length_map, Hl in Hz. rewrite Hz by nia.
    rewrite map_map.
    rewrite (map_ext_in _ (fun a => cell a i j)).
    + apply Hsum; assumption.
    + intros a Ha. symmetry.
      apply (@cell_on_grid (nb_samples m) (nb_groups m)); try assumption.
      rewrite Forall_forall in Fg. apply Fg. exact Ha.
Qed.

End AssemblyFacts.

Module ConservationExample.

Ltac solve_broadcastable :=
  split;
  [ vm_compute; reflexivity
  | vm_compute;
    first [ left; reflexivity
          | right; eexists; eexists; split; [reflexivity | split; auto] ] ].

(** The two-sample instance, patched by its caller, meets the
    requirements of the conservation theorem. *)
Lemma patched_model_ready : ode_ready Examples.patched_model 0.
Proof.
  unfold ode_ready.
  split.
  { intros i j Hi Hj.
    assert (Ej : j = 0%nat) by (vm_compute in Hj; lia). subst j.
    assert (Ei : i = 0%nat \/ i = 1%nat) by (vm_compute in Hi; lia).
    destruct Ei as [-> | ->]; vm_compute;
      repeat split; intros H; discriminate H. }
  split; [vm_compute; lia|].
  split.
  - repeat (apply Forall_cons; [solve_broadcastable|]). apply Forall_nil.
  - split; [|split]; eexists; (split; [vm_compute; reflexivity|]);
      solve_broadcastable.
Qed.

Lemma patched_model_conserves :
  exists d,
    _ode Examples.patched_model Examples.y_mixed 0 = Ok d
    /\ forall i j, (i < 2)%nat -> (j < 1)%nat ->
         qsum (firstn 14 (skipn ((i * 1 + j) * 14) (data d))) == 0.
Proof.
  assert (Hy : size Examples.y_mixed
               = (nb_samples Examples.patched_model
                  * nb_groups Examples.patched_model
                  * nb_states Examples.patched_model)%nat)
    by (vm_compute; reflexivity).
  destruct (@AssemblyFacts.ode_conserves_when_attrs_supplied
              Examples.patched_model Examples.y_mixed 0
              patched_model_ready Hy) as [d [E [_ H]]].
  exists d. split; [exact E | exact H].
Qed.

End ConservationExample.

(** ** Resampling: the count, the draw and the rows *)

Module RoundFacts.





End RoundFacts.

(** The resample count on a few inputs: the product is rounded as a
    double before it is rounded to an integer. *)
Lemma resample_count_examples :
  resample_count 2 1 = Ok 2%Z
  /\ resample_count 45 0x1.6666666666666p-1 = Ok 31%Z
  /\ resample_count 5 0x1.999999999999ap-4 = Ok 0%Z
  /\ resample_count 15 0x1.999999999999ap-4 = Ok 2%Z
  /\ resample_count 1000 0x1.999999999999ap-4 = Ok 100%Z
  /\ is_ok (resample_count 3 infinity) = false
  /\ is_ok (resample_count 3 nan) = false.
Proof. repeat split; vm_compute; reflexivity. Qed.

Section ResamplingClaim.

Variable rng_state : Type.
Variable odeint :
  (ndarray Q -> Q -> result (ndarray Q)) -> ndarray Q -> ndarray Q ->
  result (ndarray Q).
Variable ne_mismatch : result bool.
Variables np_log gammaln : Q -> Q.
Variable softmax : ndarray Q -> ndarray Q.
Variable choice :
  rng_state -> nat -> Z -> ndarray Q -> result (list nat) * rng_state.

(** What numpy documents for [choice(a, size, p=p)]: [size] indices
    below [a]. *)
Hypothesis choice_spec :
  forall r a m p idx r',
    choice r a m p = (Ok idx, r') ->
    Z.of_nat (List.length idx) = m /\ Forall (fun i => (i < a)%nat) idx.

Lemma constructor_fields_samples m m' :
  constructor_fields m = constructor_fields m' ->
  nb_samples m = nb_samples m' /\ sample_vars m = sample_vars m'.
Proof. unfold constructor_fields. intros H. inversion H. auto. Qed.



(** When [calculate_sir_posterior] returns, the weights and the resampled
    variables it stores are those of one run of lines 338-346 on the
    instance it was called on. *)
Lemma posterior_runs_resample (w w' : world rng_state)
    t o1 o2 o3 o4 ra rm rs ratio y0_arg sm :
  calculate_sir_posterior odeint ne_mismatch np_log gammaln softmax choice
    w t o1 o2 o3 o4 ra rm rs ratio y0_arg sm = (Ok tt, w') ->
  exists ws rv,
    weights (self w') = Some ws
    /\ resample_vars (self w') = Some rv
    /\ resample choice (self w) (rng w) ws ratio = (Ok rv, rng w').
Proof.
  intros H. unfold calculate_sir_posterior in H. cbv zeta in H.
  destruct (bind (cast_obs o1) _) as [[[[a b] c] d]|e]; [|discriminate].
  destruct (solve_frame odeint ne_mismatch w (NdArray (asarray t)) y0_arg)
    as [Hc [_ Hr]].
  destruct (solve odeint ne_mismatch w (NdArray (asarray t)) y0_arg)
    as [[y|e] w1]; [|discriminate].
  simpl in Hc, Hr.
  destruct (posterior_weights _ _ _ _ _ _ _ _ _ _ _ _) as [[lw ws]|e];
    [|discriminate].
  assert (Hm : resample choice (self w1) (rng w1) ws ratio
               = resample choice (self w) (rng w) ws ratio).
  { unfold resample. apply constructor_fields_samples in Hc.
    destruct Hc as [Hs Hv]. rewrite Hs, Hv, Hr. reflexivity. }
  rewrite Hm in H.
  destruct (resample choice (self w) (rng w) ws ratio) as [[rv|e] r']
    eqn:Er; [|discriminate].
  inversion H; subst w'; clear H. exists ws, rv. simpl.
  split; [reflexivity|]. split; [reflexivity|]. exact Er.
Qed.


End ResamplingClaim.



(** The whole method on the two-sample instance, with stand-ins for the
    integrator, the softmax and the draw (ratio 1, the last sample drawn
    twice): it returns, and stores the weights and the resampled
    variables of its one run of lines 338-346. *)
Lemma posterior_example_run :
  fst Examples.example_run = Ok tt
  /\ weights (self (snd Examples.example_run)) = Some Examples.half_weights
  /\ resample_vars (self (snd Examples.example_run))
     = Some [("beta", mk_ndarray [2%nat; 1%nat] [7 # 10; 7 # 10]);
             ("time_incubate", mk_ndarray [2%nat; 1%nat] [6; 6])].
Proof.
  split; [vm_compute; reflexivity|].
  split; vm_compute; reflexivity.
Qed.

(** * Further properties of the code *)

Unset Implicit Arguments.

Module ClassifierLoop.
Import Classifier.

Lemma step_bad_rank nb_groups st key value :
  ndim value <> 0%nat -> ndim value <> 2%nat ->
  is_ok (step nb_groups st (key, value)) = false.
Proof.
  intros H0 H2. unfold step. simpl fst. simpl snd.
  destruct (ndim value) as [|[|[|r]]]; try reflexivity; contradiction.
Qed.

Lemma loop_bad_rank nb_groups vars key value :
  In (key, value) vars -> ndim value <> 0%nat -> ndim value <> 2%nat ->
  forall st, is_ok (loop nb_groups vars st) = false.
Proof.
  intros Hin H0 H2. induction vars as [|kv rest IH]; [contradiction|].
  intros st. simpl loop. destruct Hin as [->|Hin].
  - pose proof (step_bad_rank nb_groups st key value H0 H2) as Hs.
    destruct (step nb_groups st (key, value)); [discriminate | reflexivity].
  - destruct (step nb_groups st kv) as [st'|e]; [|reflexivity].
    simpl. apply IH. exact Hin.
Qed.

(** What one successful iteration does, by the shape of the value. *)
Lemma step_ok nb_groups st key value st' :
  (forall n, nb_samples st = Some n -> (1 < n)%nat) ->
  step nb_groups st (key, value) = Ok st' ->
  (ndim value = 0%nat
   /\ st' = mk_cstate (nb_samples st) (dict_set key value (scalar_vars st))
              (group_vars st) (sample_vars st))
  \/ (shape value = [1%nat; nb_groups] /\ truthy (nb_samples st) = false
      /\ st' = mk_cstate (nb_samples st) (scalar_vars st)
                 (dict_set key value (group_vars st)) (sample_vars st))
  \/ (exists k, (1 < k)%nat
      /\ (shape value = [k; 1%nat] \/ shape value = [k; nb_groups])
      /\ st' = mk_cstate (Some k) (scalar_vars st) (group_vars st)
                 (dict_set key value (sample_vars st))).
Proof.
  intros Hinv. unfold step. simpl fst. simpl snd. unfold ndim.
  destruct (shape value) as [|d0 [|d1 [|d2 r]]] eqn:Hs; simpl List.length;
    cbv iota; try discriminate.
  - intros H. inversion H. left. auto.
  - cbn [nth]. destruct (Nat.ltb_spec 1 d0) as [Hd|Hd].
    + unfold bind, check_samples.
      cbn [nb_samples scalar_vars group_vars sample_vars].
      rewrite Hs. cbn [nth].
      rewrite (@ClassifierFacts.truthy_gt1 d0 Hd), Nat.eqb_refl. cbn [negb].
      unfold shape_eqb.
      destruct (list_eq_dec Nat.eq_dec [d0; d1] [d0; 1%nat]) as [E1|N1];
        destruct (list_eq_dec Nat.eq_dec [d0; d1] [d0; nb_groups]) as [E2|N2];
        cbn [negb andb]; try discriminate;
        intros H; inversion H; right; right; exists d0;
        (split; [exact Hd|]); (split; [|reflexivity]); auto.
    + unfold shape_eqb.
      destruct (list_eq_dec Nat.eq_dec [d0; d1] [1%nat; nb_groups]) as [E|N];
        [|discriminate].
      unfold bind, check_samples.
      cbn [nb_samples scalar_vars group_vars sample_vars].
      rewrite Hs. cbn [nth].
      destruct (nb_samples st) as [n|] eqn:Hn.
      * destruct (truthy (Some n)) eqn:Ht.
        -- inversion E; subst.
           destruct (Nat.eqb_spec 1 n) as [E1|Hne]; cbn [negb].
           ++ specialize (Hinv n eq_refl). lia.
           ++ discriminate.
        -- intros H. inversion H. right. left. auto.
      * intros H. inversion H. right. left. auto.
Qed.

Lemma step_count_ok nb_groups st key value st' :
  count_ok st -> step nb_groups st (key, value) = Ok st' -> count_ok st'.
Proof.
  intros Hc H. destruct (step_ok nb_groups st key value st' Hc H)
    as [[_ E]|[[_ [_ E]]|[k [Hk [_ E]]]]]; subst st'; intros n Hn;
    cbn [nb_samples] in Hn.
  - apply Hc. exact Hn.
  - apply Hc. exact Hn.
  - inversion Hn; subst. exact Hk.
Qed.

Lemma dict_set_In_new {V} k (v : V) d : In (k, v) (dict_set k v d).
Proof.
  induction d as [|[k' v'] d IH]; simpl; [left; reflexivity|].
  destruct (String.eqb k k'); [left; reflexivity | right; exact IH].
Qed.

Lemma dict_set_In_old {V} k (v : V) d k' v' :
  In (k', v') d -> k' <> k -> In (k', v') (dict_set k v d).
Proof.
  induction d as [|[k0 v0] d IH]; simpl; intros Hin Hne; [contradiction|].
  destruct (String.eqb_spec k k0) as [E|N].
  - destruct Hin as [Hin|Hin]; [|right; exact Hin].
    inversion Hin; subst. contradiction.
  - destruct Hin as [Hin|Hin]; [left; exact Hin | right; apply IH; assumption].
Qed.

Lemma dict_set_In_inv {V} k (v : V) d kv :
  In kv (dict_set k v d) -> kv = (k, v) \/ In kv d.
Proof.
  induction d as [|[k0 v0] d IH]; simpl; intros Hin.
  - destruct Hin as [<-|[]]. left. reflexivity.
  - destruct (String.eqb k k0).
    + destruct Hin as [<-|Hin]; [left; reflexivity | right; right; exact Hin].
    + destruct Hin as [<-|Hin]; [right; left; reflexivity|].
      destruct (IH Hin) as [E|Hd]; [left; exact E | right; right; exact Hd].
Qed.

Lemma loop_app nb_groups l1 l2 st :
  loop nb_groups (l1 ++ l2)%list st
  = bind (loop nb_groups l1 st) (loop nb_groups l2).
Proof.
  revert st. induction l1 as [|kv l1 IH]; intros st; [reflexivity|].
  simpl. destruct (step nb_groups st kv) as [st'|e]; [apply IH | reflexivity].
Qed.

Lemma loop_count_ok nb_groups vars :
  forall st st', count_ok st -> loop nb_groups vars st = Ok st' -> count_ok st'.
Proof.
  induction vars as [|[key value] rest IH]; intros st st' Hc H; simpl in H.
  - inversion H; subst. exact Hc.
  - destruct (step nb_groups st (key, value)) as [st1|e] eqn:Es;
      [|discriminate].
    simpl in H. apply (IH st1 st' (step_count_ok _ _ _ _ _ Hc Es) H).
Qed.

Lemma step_files nb_groups st key value st' :
  count_ok st -> step nb_groups st (key, value) = Ok st' ->
  filed nb_groups st' key value
  /\ (forall k v, k <> key -> filed nb_groups st k v -> filed nb_groups st' k v)
  /\ (forall kv, In kv (scalar_vars st') ->
        In kv (scalar_vars st) \/ (kv = (key, value) /\ ndim value = 0%nat))
  /\ (forall kv, In kv (group_vars st') ->
        In kv (group_vars st)
        \/ (kv = (key, value) /\ shape value = [1%nat; nb_groups]))
  /\ (forall kv, In kv (sample_vars st') ->
        In kv (sample_vars st)
        \/ (kv = (key, value) /\ sample_shape nb_groups (shape value))).
Proof.
  intros Hc H. destruct (step_ok nb_groups st key value st' Hc H)
    as [[H0 E]|[[Hg [_ E]]|[k [Hk [Hs E]]]]]; subst st';
    cbn [scalar_vars group_vars sample_vars].
  - split; [left; split; [exact H0 | apply dict_set_In_new]|].
    split; [|split; [|split]].
    + intros k v Hne [[A B]|[[A B]|[A B]]]; cbn [scalar_vars group_vars sample_vars].
      * left. split; [exact A | apply dict_set_In_old; assumption].
      * right. left. auto.
      * right. right. auto.
    + intros kv Hin. destruct (dict_set_In_inv _ _ _ _ Hin); auto.
    + auto.
    + auto.
  - split; [right; left; split; [exact Hg | apply dict_set_In_new]|].
    split; [|split; [|split]].
    + intros k v Hne [[A B]|[[A B]|[A B]]]; cbn [scalar_vars group_vars sample_vars].
      * left. auto.
      * right. left. split; [exact A | apply dict_set_In_old; assumption].
      * right. right. auto.
    + auto.
    + intros kv Hin. destruct (dict_set_In_inv _ _ _ _ Hin); auto.
    + auto.
  - assert (Hss : sample_shape nb_groups (shape value)) by (exists k; auto).
    split; [right; right; split; [exact Hss | apply dict_set_In_new]|].
    split; [|split; [|split]].
    + intros k0 v Hne [[A B]|[[A B]|[A B]]]; cbn [scalar_vars group_vars sample_vars].
      * left. auto.
      * right. left. auto.
      * right. right. split; [exact A | apply dict_set_In_old; assumption].
    + auto.
    + auto.
    + intros kv Hin. destruct (dict_set_In_inv _ _ _ _ Hin); auto.
Qed.

Lemma loop_files nb_groups vars :
  forall st st',
    count_ok st -> NoDup (keys vars) -> loop nb_groups vars st = Ok st' ->
    (forall key value, In (key, value) vars -> filed nb_groups st' key value)
    /\ (forall k v, ~ In k (keys vars) ->
          filed nb_groups st k v -> filed nb_groups st' k v)
    /\ (forall kv, In kv (scalar_vars st') ->
          In kv (scalar_vars st) \/ (In kv vars /\ ndim (snd kv) = 0%nat))
    /\ (forall kv, In kv (group_vars st') ->
          In kv (group_vars st)
          \/ (In kv vars /\ shape (snd kv) = [1%nat; nb_groups]))
    /\ (forall kv, In kv (sample_vars st') ->
          In kv (sample_vars st)
          \/ (In kv vars /\ sample_shape nb_groups (shape (snd kv)))).
Proof.
  induction vars as [|[key value] rest IH]; intros st st' Hc Hnd H;
    simpl in H.
  - inversion H; subst. repeat split; auto. intros key value [].
  - destruct (step nb_groups st (key, value)) as [st1|e] eqn:Es;
      [|discriminate].
    simpl in H. simpl in Hnd. inversion Hnd as [|? ? Hnotin Hnd']; subst.
    destruct (step_files _ _ _ _ _ Hc Es) as [F1 [P1 [S1 [G1 A1]]]].
    destruct (IH st1 st' (step_count_ok _ _ _ _ _ Hc Es) Hnd' H)
      as [F2 [P2 [S2 [G2 A2]]]].
    split; [|split; [|split; [|split]]].
    + intros k v [E|Hin].
      * inversion E; subst. apply P2; [exact Hnotin | exact F1].
      * apply F2. exact Hin.
    + intros k v Hk Hf. apply P2.
      * intros Hin. apply Hk. right. exact Hin.
      * apply P1; [|exact Hf]. intros E. apply Hk. left. simpl. auto.
    + intros kv Hin. destruct (S2 kv Hin) as [Hin1|[Hin1 Hs]].
      * destruct (S1 kv Hin1) as [Hin0|[E Hs]]; [left; exact Hin0|].
        right. subst kv. split; [left; reflexivity | exact Hs].
      * right. split; [right; exact Hin1 | exact Hs].
    + intros kv Hin. destruct (G2 kv Hin) as [Hin1|[Hin1 Hs]].
      * destruct (G1 kv Hin1) as [Hin0|[E Hs]]; [left; exact Hin0|].
        right. subst kv. split; [left; reflexivity | exact Hs].
      * right. split; [right; exact Hin1 | exact Hs].
    + intros kv Hin. destruct (A2 kv Hin) as [Hin1|[Hin1 Hs]].
      * destruct (A1 kv Hin1) as [Hin0|[E Hs]]; [left; exact Hin0|].
        right. subst kv. split; [left; reflexivity | exact Hs].
      * right. split; [right; exact Hin1 | exact Hs].
Qed.

Lemma init_count_ok : count_ok init_state.
Proof. intros n H. discriminate H. Qed.

Lemma classifier_ok_inv vars nb_groups n sc gr sa :
  _determine_sample_vars vars nb_groups = Ok (n, (sc, gr, sa)) ->
  exists st,
    loop nb_groups vars init_state = Ok st
    /\ sc = scalar_vars st /\ gr = group_vars st /\ sa = sample_vars st
    /\ n = match nb_samples st with Some k => k | None => 1%nat end.
Proof.
  unfold _determine_sample_vars. intros H.
  destruct (loop nb_groups vars init_state) as [st|e] eqn:El; [|discriminate].
  simpl in H. inversion H; subst. exists st.
  repeat split; try reflexivity.
  pose proof (loop_count_ok nb_groups vars _ _ init_count_ok El) as Hc.
  destruct (nb_samples st) as [k|] eqn:Hk; [|reflexivity].
  rewrite (@ClassifierFacts.truthy_gt1 k (Hc k Hk)). reflexivity.
Qed.

Lemma loop_count nb_groups vars :
  forall st st',
    count_ok st -> loop nb_groups vars st = Ok st' ->
    nb_samples st' =
      fold_left
        (fun acc kv =>
           match shape (snd kv) with
           | [d0; _] => if (1 <? d0)%nat then Some d0 else acc
           | _ => acc
           end)
        vars (nb_samples st).
Proof.
  induction vars as [|[key value] rest IH]; intros st st' Hc H; simpl in H.
  - inversion H; subst. reflexivity.
  - destruct (step nb_groups st (key, value)) as [st1|e] eqn:Es;
      [|discriminate].
    simpl in H. rewrite (IH st1 st' (step_count_ok _ _ _ _ _ Hc Es) H).
    cbn [fold_left snd]. f_equal.
    destruct (step_ok nb_groups st key value st1 Hc Es)
      as [[H0 E]|[[Hg [_ E]]|[k [Hk [Hs E]]]]]; subst st1; cbn [nb_samples].
    + unfold ndim in H0. destruct (shape value); [reflexivity | discriminate].
    + rewrite Hg. reflexivity.
    + destruct Hs as [Hs|Hs]; rewrite Hs;
        (destruct (Nat.ltb_spec 1 k); [reflexivity | lia]).
Qed.

Lemma loop_group_after_sample nb_groups vars key value :
  In (key, value) vars -> shape value = [1%nat; nb_groups] ->
  forall st k, nb_samples st = Some k -> (1 < k)%nat ->
    is_ok (loop nb_groups vars st) = false.
Proof.
  intros Hin Hs. induction vars as [|[k0 v0] rest IH]; [contradiction|].
  intros st k Hn Hk. simpl loop.
  assert (Hc : count_ok st).
  { intros n E. rewrite Hn in E. inversion E; subst. exact Hk. }
  destruct Hin as [E|Hin].
  - inversion E; subst.
    rewrite (@ClassifierFacts.step_group_after_sample
               nb_groups st key value k Hn Hk Hs).
    reflexivity.
  - destruct (step nb_groups st (k0, v0)) as [st1|e] eqn:Es; [|reflexivity].
    simpl.
    destruct (step_ok nb_groups st k0 v0 st1 Hc Es)
      as [[_ E]|[[_ [Ht _]]|[k' [Hk' [_ E]]]]].
    + apply (IH Hin st1 k); [subst st1; exact Hn | exact Hk].
    + rewrite Hn, (@ClassifierFacts.truthy_gt1 k Hk) in Ht. discriminate Ht.
    + apply (IH Hin st1 k'); [subst st1; reflexivity | exact Hk'].
Qed.

End ClassifierLoop.

(** X1. A parameter whose number of axes is neither 0 nor 2 makes the
    classification fail, wherever it stands among the parameters.  When
    the parameters before it classify without error, the exception is the
    one this parameter causes: the [ValueError] of line 388 under its
    name when it has one axis, and an [AttributeError] when it has three
    or more, because the message of line 415 reads [value.ndims]. *)
Theorem X1_rank_other_than_0_or_2_rejected :
  forall nb_groups key value,
    ndim value <> 0%nat -> ndim value <> 2%nat ->
    (forall vars,
       In (key, value) vars ->
       is_ok (Classifier._determine_sample_vars vars nb_groups) = false)
    /\ (forall l1 l2,
          is_ok (Classifier._determine_sample_vars l1 nb_groups) = true ->
          Classifier._determine_sample_vars
            (l1 ++ (key, value) :: l2)%list nb_groups
          = Raise (if (ndim value =? 1)%nat
                   then ValueError Classifier.msg_rank1 key []
                   else AttributeError "ndims")).
Proof.
  intros nb_groups key value H0 H2. split.
  - intros vars Hin. unfold Classifier._determine_sample_vars.
    pose proof (ClassifierLoop.loop_bad_rank nb_groups vars key value
                  Hin H0 H2 Classifier.init_state) as H.
    destruct (Classifier.loop nb_groups vars Classifier.init_state);
      [discriminate | reflexivity].
  - intros l1 l2 Hok. unfold Classifier._determine_sample_vars in *.
    rewrite ClassifierLoop.loop_app.
    destruct (Classifier.loop nb_groups l1 Classifier.init_state)
      as [st|e]; [|discriminate Hok].
    cbn [bind Classifier.loop]. unfold Classifier.step. cbn [fst snd].
    destruct (ndim value) as [|[|[|r]]]; try reflexivity; contradiction.
Qed.

Lemma X1_witness :
  (forall vars,
     In ("a", mk_ndarray [3%nat] [1; 2; 3]) vars ->
     is_ok (Classifier._determine_sample_vars vars 2) = false)
  /\ Classifier._determine_sample_vars
       ([("s", scalar 1)] ++ ("a", mk_ndarray [3%nat] [1; 2; 3])
        :: [("b", full [3%nat; 1%nat] 1)])%list 2
     = Raise (ValueError Classifier.msg_rank1 "a" [])
  /\ Classifier._determine_sample_vars
       ([("s", scalar 1)] ++ ("c", mk_ndarray [1%nat; 1%nat; 1%nat] [1])
        :: [("b", full [3%nat; 1%nat] 1)])%list 2
     = Raise (AttributeError "ndims").
Proof.
  assert (Ha0 : ndim (mk_ndarray [3%nat] [1; 2; 3]) <> 0%nat)
    by discriminate.
  assert (Ha2 : ndim (mk_ndarray [3%nat] [1; 2; 3]) <> 2%nat)
    by discriminate.
  assert (Hc0 : ndim (mk_ndarray [1%nat; 1%nat; 1%nat] [1]) <> 0%nat)
    by discriminate.
  assert (Hc2 : ndim (mk_ndarray [1%nat; 1%nat; 1%nat] [1]) <> 2%nat)
    by discriminate.
  assert (Hok : is_ok (Classifier._determine_sample_vars [("s", scalar 1)] 2)
                = true) by reflexivity.
  split; [|split].
  - exact (proj1 (X1_rank_other_than_0_or_2_rejected 2 "a"
                    (mk_ndarray [3%nat] [1; 2; 3]) Ha0 Ha2)).
  - exact (proj2 (X1_rank_other_than_0_or_2_rejected 2 "a"
                    (mk_ndarray [3%nat] [1; 2; 3]) Ha0 Ha2)
             [("s", scalar 1)] [("b", full [3%nat; 1%nat] 1)] Hok).
  - exact (proj2 (X1_rank_other_than_0_or_2_rejected 2 "c"
                    (mk_ndarray [1%nat; 1%nat; 1%nat] [1]) Hc0 Hc2)
             [("s", scalar 1)] [("b", full [3%nat; 1%nat] 1)] Hok).
Defined.

(** X2. When the classification succeeds on parameters with distinct
    names, every parameter is filed in the class its shape calls for
    (no axis: scalar; shape (1, nb_groups): group; shape (k, 1) or
    (k, nb_groups) with k > 1: sample), and the three returned mappings
    hold nothing else. *)
Theorem X2_classification_complete_and_sound :
  forall vars nb_groups n sc gr sa,
    NoDup (keys vars) ->
    Classifier._determine_sample_vars vars nb_groups = Ok (n, (sc, gr, sa)) ->
    (forall key value, In (key, value) vars ->
       (ndim value = 0%nat /\ In (key, value) sc)
       \/ (shape value = [1%nat; nb_groups] /\ In (key, value) gr)
       \/ (sample_shape nb_groups (shape value) /\ In (key, value) sa))
    /\ (forall kv, In kv sc -> In kv vars /\ ndim (snd kv) = 0%nat)
    /\ (forall kv, In kv gr ->
          In kv vars /\ shape (snd kv) = [1%nat; nb_groups])
    /\ (forall kv, In kv sa ->
          In kv vars /\ sample_shape nb_groups (shape (snd kv))).
Proof.
  intros vars nb_groups n sc gr sa Hnd H.
  destruct (ClassifierLoop.classifier_ok_inv _ _ _ _ _ _ H)
    as [st [El [-> [-> [-> _]]]]].
  destruct (ClassifierLoop.loop_files nb_groups vars _ _
              ClassifierLoop.init_count_ok Hnd El) as [F [_ [S [G A]]]].
  split; [exact F|]. split; [|split].
  - intros kv Hin. destruct (S kv Hin) as [[]|Hr]. exact Hr.
  - intros kv Hin. destruct (G kv Hin) as [[]|Hr]. exact Hr.
  - intros kv Hin. destruct (A kv Hin) as [[]|Hr]. exact Hr.
Qed.

(** X3. The sample count returned is the first-axis length of the last
    parameter, in iteration order, with two axes and more than one row;
    it is 1 when there is none. *)
Theorem X3_sample_count_is_that_of_last_sample_tensor :
  forall vars nb_groups n sc gr sa,
    Classifier._determine_sample_vars vars nb_groups = Ok (n, (sc, gr, sa)) ->
    n = match last_sample_count vars with Some k => k | None => 1%nat end.
Proof.
  intros vars nb_groups n sc gr sa H.
  destruct (ClassifierLoop.classifier_ok_inv _ _ _ _ _ _ H)
    as [st [El [_ [_ [_ ->]]]]].
  rewrite (ClassifierLoop.loop_count nb_groups vars _ _
             ClassifierLoop.init_count_ok El).
  reflexivity.
Qed.

(** X4. The classification fails whenever a (1, nb_groups) group vector
    comes, in iteration order, after a parameter with two axes and more
    than one row. *)
Theorem X4_group_vector_after_sample_tensor_rejected :
  forall nb_groups l1 k1 v1 l2 k2 v2,
    ndim v1 = 2%nat -> (1 < nth 0 (shape v1) 0)%nat ->
    In (k2, v2) l2 -> shape v2 = [1%nat; nb_groups] ->
    is_ok (Classifier._determine_sample_vars (l1 ++ (k1, v1) :: l2)%list
             nb_groups)
      = false.
Proof.
  intros nb_groups l1 k1 v1 l2 k2 v2 Hr Hd Hin Hs.
  unfold Classifier._determine_sample_vars.
  rewrite ClassifierLoop.loop_app.
  destruct (Classifier.loop nb_groups l1 Classifier.init_state)
    as [st1|e] eqn:E1; [|reflexivity].
  cbn [bind Classifier.loop].
  pose proof (ClassifierLoop.loop_count_ok nb_groups l1 _ _
                ClassifierLoop.init_count_ok E1) as Hc.
  destruct (Classifier.step nb_groups st1 (k1, v1)) as [st2|e] eqn:E2;
    [|reflexivity].
  cbn [bind].
  destruct (ClassifierLoop.step_ok nb_groups st1 k1 v1 st2 Hc E2)
    as [[H0 _]|[[Hg _]|[k [Hk [_ E]]]]].
  - rewrite H0 in Hr. discriminate Hr.
  - rewrite Hg in Hd. simpl in Hd. lia.
  - pose proof (ClassifierLoop.loop_group_after_sample nb_groups l2 k2 v2
                  Hin Hs st2 k) as Hf.
    rewrite E in Hf. specialize (Hf eq_refl Hk). rewrite <- E in Hf.
    destruct (Classifier.loop nb_groups l2 st2); [discriminate | reflexivity].
Qed.


Lemma X2_witness :
  NoDup (keys mixed_vars)
  /\ Classifier._determine_sample_vars mixed_vars 2
     = Ok (3%nat,
           ([("s", scalar 1)], [("g", full [1%nat; 2%nat] 1)],
            [("a", full [3%nat; 1%nat] 1); ("b", full [3%nat; 2%nat] 1)]))
  /\ (forall key value, In (key, value) mixed_vars ->
        (ndim value = 0%nat /\ In (key, value) [("s", scalar 1)])
        \/ (shape value = [1%nat; 2%nat]
            /\ In (key, value) [("g", full [1%nat; 2%nat] 1)])
        \/ (sample_shape 2 (shape value)
            /\ In (key, value)
                 [("a", full [3%nat; 1%nat] 1); ("b", full [3%nat; 2%nat] 1)])).
Proof.
  assert (Hnd : NoDup (keys mixed_vars)).
  { vm_compute. repeat (constructor; [simpl; intuition discriminate|]).
    constructor. }
  assert (Hrun : Classifier._determine_sample_vars mixed_vars 2
     = Ok (3%nat,
           ([("s", scalar 1)], [("g", full [1%nat; 2%nat] 1)],
            [("a", full [3%nat; 1%nat] 1); ("b", full [3%nat; 2%nat] 1)])))
    by reflexivity.
  split; [exact Hnd|]. split; [exact Hrun|].
  exact (proj1 (X2_classification_complete_and_sound _ _ _ _ _ _ Hnd Hrun)).
Defined.

Lemma X3_witness :
  Classifier._determine_sample_vars mixed_vars 2
  = Ok (3%nat,
        ([("s", scalar 1)], [("g", full [1%nat; 2%nat] 1)],
         [("a", full [3%nat; 1%nat] 1); ("b", full [3%nat; 2%nat] 1)]))
  /\ 3%nat = match last_sample_count mixed_vars with
             | Some k => k
             | None => 1%nat
             end.
Proof.
  assert (Hrun : Classifier._determine_sample_vars mixed_vars 2
     = Ok (3%nat,
           ([("s", scalar 1)], [("g", full [1%nat; 2%nat] 1)],
            [("a", full [3%nat; 1%nat] 1); ("b", full [3%nat; 2%nat] 1)])))
    by reflexivity.
  split; [exact Hrun|].
  exact (X3_sample_count_is_that_of_last_sample_tensor _ _ _ _ _ _ Hrun).
Defined.

Lemma X4_witness :
  ndim (full [3%nat; 1%nat] 1) = 2%nat
  /\ (1 < nth 0 (shape (full [3%nat; 1%nat] 1)) 0)%nat
  /\ In ("g", full [1%nat; 2%nat] 1) [("g", full [1%nat; 2%nat] 1)]
  /\ shape (full [1%nat; 2%nat] 1) = [1%nat; 2%nat]
  /\ is_ok (Classifier._determine_sample_vars
              ([("s", scalar 1)] ++ ("a", full [3%nat; 1%nat] 1)
               :: [("g", full [1%nat; 2%nat] 1)])%list 2) = false.
Proof.
  assert (H1 : ndim (full [3%nat; 1%nat] 1) = 2%nat) by reflexivity.
  assert (H2 : (1 < nth 0 (shape (full [3%nat; 1%nat] 1)) 0)%nat)
    by (simpl; lia).
  assert (H3 : In ("g", full [1%nat; 2%nat] 1) [("g", full [1%nat; 2%nat] 1)])
    by (left; reflexivity).
  assert (H4 : shape (full [1%nat; 2%nat] 1) = [1%nat; 2%nat]) by reflexivity.
  split; [exact H1|]. split; [exact H2|]. split; [exact H3|].
  split; [exact H4|].
  exact (X4_group_vector_after_sample_tensor_rejected 2 [("s", scalar 1)]
           "a" (full [3%nat; 1%nat] 1) [("g", full [1%nat; 2%nat] 1)]
           "g" (full [1%nat; 2%nat] 1) H1 H2 H3 H4).
Defined.

Module PopulationFacts.

Lemma fold_vadd_singletons q : forall blk : list Q,
  List.length blk = q ->
  fold_right vadd (repeat 0 1) (chunks q 1 blk) = [qsum blk].
Proof.
  induction q as [|q IH]; intros blk Hl.
  - destruct blk; [reflexivity | discriminate].
  - destruct blk as [|x blk]; [discriminate|].
    cbn [chunks firstn skipn fold_right].
    rewrite IH by (simpl in Hl; lia). reflexivity.
Qed.

Lemma flat_map_singletons {A B} (f : A -> list B) (g : A -> B) l :
  (forall x, In x l -> f x = [g x]) -> flat_map f l = map g l.
Proof.
  induction l as [|x l IH]; intros H; [reflexivity|].
  cbn [flat_map map]. rewrite (H x) by (left; reflexivity).
  rewrite IH; [reflexivity|]. intros y Hy. apply H. right. exact Hy.
Qed.

(** [np.sum(a, axis=1, keepdims=True)] of a two-axis array: one total per
    row. *)
Lemma sum_axis1_rows (a : ndarray Q) p q :
  shape a = [p; q] -> well_formed a ->
  sum_axis true 1 a
  = Ok (mk_ndarray [p; 1%nat] (map qsum (chunks p q (data a)))).
Proof.
  intros Hs W. unfold sum_axis. rewrite Hs. cbn [firstn skipn app].
  f_equal. f_equal.
  cbn [prod_shape fold_right]. rewrite !Nat.mul_1_r.
  apply flat_map_singletons. intros blk Hb.
  apply fold_vadd_singletons.
  apply (SliceFacts.in_chunks_length p q (data a)); [|exact Hb].
  unfold well_formed, size in W. rewrite W, Hs. simpl. lia.
Qed.

End PopulationFacts.

(** X5. An instance the constructor returns keeps the caller's [y0], and
    its population [n] has one row per sample holding the sum of the
    16 * nb_groups state values of that sample. *)
Theorem X5_population_is_per_sample_total :
  forall debug a m,
    init debug a = Ok m ->
    y0 m = a_y0 a
    /\ shape (n m) = [nb_samples m; 1%nat]
    /\ forall s, (s < nb_samples m)%nat ->
         nth s (data (n m)) 0
         = qsum (firstn (nb_groups m * 16)
                   (skipn (s * (nb_groups m * 16)) (data (a_y0 a)))).
Proof.
  intros debug a m H. unfold init in H.
  repeat (apply InitFacts.bind_ok in H; destruct H as [? [? H]]).
  inversion H; subst; clear H. cbn [y0 n nb_samples nb_groups].
  match goal with
  | Hr : reshape _ _ = Ok ?r, Hn : sum_axis true 1 ?r = Ok ?nn |- _ =>
      apply InitFacts.reshape_ok in Hr; destruct Hr as [Hp Er];
      rewrite (PopulationFacts.sum_axis1_rows r _ _
                 (f_equal (@shape Q) Er)) in Hn;
      [ inversion Hn; subst nn; clear Hn | ]
  end.
  - split; [reflexivity|]. split; [reflexivity|].
    intros s Hs. cbn [data].
    change 0 with (qsum []) at 1. rewrite map_nth.
    rewrite BroadcastFacts.nth_chunks by exact Hs.
    subst. reflexivity.
  - subst. unfold well_formed, size. cbn [data shape]. symmetry. exact Hp.
Qed.

Lemma X5_witness :
  init false Examples.sampled_args = Ok Examples.sampled_model
  /\ y0 Examples.sampled_model = a_y0 Examples.sampled_args
  /\ shape (n Examples.sampled_model)
     = [nb_samples Examples.sampled_model; 1%nat].
Proof.
  assert (H : init false Examples.sampled_args = Ok Examples.sampled_model)
    by (vm_compute; reflexivity).
  split; [exact H|].
  destruct (X5_population_is_per_sample_total false Examples.sampled_args
              Examples.sampled_model H) as [A [B _]].
  split; [exact A | exact B].
Defined.

(** ** The constructor with its assertions on *)

Module RangeFacts.

Lemma map2_bc_elements {A B C} (f : A -> B -> C) a b r :
  map2_bc f a b = Ok r ->
  forall z, In z (data r) ->
    exists x y, In x (data a) /\ In y (data b) /\ z = f x y.
Proof.
  unfold map2_bc. destruct (broadcast_shapes (shape a) (shape b)) as [s|];
    [|discriminate].
  intros H z Hz. inversion H; subst r; clear H. cbn [data] in Hz.
  apply in_map_iff in Hz. destruct Hz as [[x y] [E Hin]].
  exists x, y. cbn [fst snd] in E.
  split; [|split; [|symmetry; exact E]].
  - apply in_combine_l in Hin.
    apply (BroadcastFacts.broadcast_data_In _ _ _ _ Hin).
  - apply in_combine_r in Hin.
    apply (BroadcastFacts.broadcast_data_In _ _ _ _ Hin).
Qed.

Lemma solid_join sa sb s :
  solid sa -> solid sb -> broadcast_shapes sa sb = Some s ->
  solid s
  /\ stretches_to (pad_shape (List.length s) sa) s
  /\ stretches_to (pad_shape (List.length s) sb) s.
Proof.
  intros [->|[p [q [-> [Hp Hq]]]]] [->|[p' [q' [-> [Hp' Hq']]]]].
  - intros H. inversion H; subst. split; [left; reflexivity|].
    split; constructor.
  - intros H. inversion H; subst. split; [right; exists p', q'; auto|].
    split; GridFacts.solve_stretch.
  - intros H. inversion H; subst. split; [right; exists p, q; auto|].
    split; GridFacts.solve_stretch.
  - unfold broadcast_shapes. cbn [option_map rev app bshape_rev].
    GridFacts.crunch_eqb; intros H; inversion H; subst;
      (split; [right; eexists; eexists; split; [reflexivity|]; split; lia|]);
      split; GridFacts.solve_stretch.
Qed.

Lemma solid_prod s : solid s -> (0 < prod_shape s)%nat.
Proof.
  intros [->|[p [q [-> [Hp Hq]]]]]; simpl; nia.
Qed.

(** An element-wise result on solid, well-formed operands is not empty. *)
Lemma map2_bc_solid (f : Q -> Q -> Q) a b r :
  solid (shape a) -> solid (shape b) -> well_formed a -> well_formed b ->
  map2_bc f a b = Ok r ->
  solid (shape r) /\ well_formed r /\ data r <> [].
Proof.
  intros Sa Sb Wa Wb H.
  destruct (broadcast_shapes (shape a) (shape b)) as [s|] eqn:Es.
  - destruct (solid_join _ _ _ Sa Sb Es) as [Ss [Ca Cb]].
    destruct (@GridFacts.map2_bc_nth f a b s Es Ca Cb Wa Wb)
      as [c [Ec [Sc [Wc _]]]].
    rewrite H in Ec. inversion Ec; subst c.
    split; [rewrite Sc; exact Ss|]. split; [exact Wc|].
    intros E. pose proof (solid_prod _ Ss) as Hpos.
    unfold well_formed, size in Wc. rewrite E, Sc in Wc. simpl in Wc. lia.
  - unfold map2_bc in H. rewrite Es in H. discriminate H.
Qed.

End RangeFacts.

Module AssertionFacts.

Lemma filed_solid nb_groups st key value :
  (0 < nb_groups)%nat -> filed nb_groups st key value -> solid (shape value).
Proof.
  intros Hg [[H _]|[[H _]|[[k [Hk [H|H]]] _]]].
  - left. unfold ndim in H. destruct (shape value); [reflexivity|discriminate].
  - right. exists 1%nat, nb_groups. split; [exact H|]. split; lia.
  - right. exists k, 1%nat. split; [exact H|]. split; lia.
  - right. exists k, nb_groups. split; [exact H|]. split; lia.
Qed.

Lemma scalar_solid (q : Q) : solid (shape (scalar q)) /\ well_formed (scalar q).
Proof. split; [left; reflexivity | reflexivity]. Qed.

(** With every proportion asserted to be 1 everywhere, the derived
    proportion 1 - prop_as - prop_m can pass only if it has no element. *)
Lemma derived_prop_empty (pa pm x ps : ndarray Q) :
  solid (shape pa) -> solid (shape pm) -> well_formed pa -> well_formed pm ->
  map2_bc Qminus (scalar 1) pa = Ok x ->
  map2_bc Qminus x pm = Ok ps ->
  Forall (fun v => v == 1) (data pa) ->
  Forall (fun v => v == 1) (data pm) ->
  Forall (fun v => v == 1) (data ps) ->
  False.
Proof.
  intros Sa Sm Wa Wm Ex Es Fa Fm Fs.
  destruct (scalar_solid 1) as [S1 W1].
  destruct (RangeFacts.map2_bc_solid _ _ _ _ S1 Sa W1 Wa Ex) as [Sx [Wx _]].
  destruct (RangeFacts.map2_bc_solid _ _ _ _ Sx Sm Wx Wm Es) as [_ [_ Hne]].
  destruct (data ps) as [|z rest] eqn:Ed; [apply Hne; reflexivity|].
  assert (Hz : In z (data ps)) by (rewrite Ed; left; reflexivity).
  destruct (RangeFacts.map2_bc_elements _ _ _ _ Es z Hz)
    as [u [y [Hu [Hy Ez]]]].
  destruct (RangeFacts.map2_bc_elements _ _ _ _ Ex u Hu)
    as [o [w [Ho [Hw Eu]]]].
  destruct Ho as [<-|[]].
  rewrite Forall_forall in Fa, Fm.
  pose proof (Fa w Hw) as Hw1. pose proof (Fm y Hy) as Hy1.
  inversion Fs as [|? ? Hz1 _]; subst.
  rewrite Hw1, Hy1 in Hz1. vm_compute in Hz1. discriminate Hz1.
Qed.

Lemma init_keys_nodup (l : dict (ndarray Q)) :
  keys l =
    ["beta"; "rel_lockdown_beta"; "rel_postlockdown_beta"; "rel_beta_as";
     "prop_as"; "prop_m"; "prop_s"; "prop_s_to_h"; "prop_s_to_c";
     "prop_h_to_c"; "prop_h_to_d"; "prop_h_to_r"; "prop_c_to_d";
     "time_incubate"; "time_infectious"; "time_s_to_h"; "time_s_to_c";
     "time_h_to_c"; "time_h_to_r"; "time_h_to_d"; "time_c_to_r";
     "time_c_to_d"] ->
  NoDup (keys l).
Proof.
  intros ->.
  repeat (constructor;
          [intros H; simpl in H;
           repeat (destruct H as [H|H]; [discriminate H|]); exact H|]).
  constructor.
Qed.

End AssertionFacts.

(** X6. With assertions enabled the constructor returns an instance only
    for a model without population groups: the proportions are asserted
    to be at most 1 and at least 1, and the derived proportion
    1 - prop_as - prop_m is then -1 wherever it has an element. *)
Theorem X6_assertions_leave_only_the_empty_model :
  forall a m,
    well_formed (a_prop_as a) -> well_formed (a_prop_m a) ->
    init true a = Ok m -> nb_groups m = 0%nat.
Proof.
  intros a m Wa Wm H. unfold init in H.
  apply InitFacts.bind_ok in H. destruct H as [ps [Eps H]].
  apply InitFacts.bind_ok in H. destruct H as [psc [_ H]].
  apply InitFacts.bind_ok in H. destruct H as [phr [_ H]].
  apply InitFacts.bind_ok in H. destruct H as [[] [Hchk H]].
  apply InitFacts.bind_ok in H. destruct H as [[n [[sc gr] sa]] [Hcls H]].
  apply InitFacts.bind_ok in H. destruct H as [[] [_ H]].
  apply InitFacts.bind_ok in H. destruct H as [y0r [_ H]].
  apply InitFacts.bind_ok in H. destruct H as [nn [_ H]].
  inversion H; subst m; clear H. cbn [nb_groups].
  destruct (a_nb_groups a) as [|g] eqn:Eg; [reflexivity|exfalso].
  (* the derived proportion *)
  unfold lift2, num in Eps. cbn [bind] in Eps.
  apply InitFacts.bind_ok in Eps. destruct Eps as [x [Ex Eps]].
  (* the range assertions *)
  unfold check_ranges in Hchk.
  apply InitFacts.bind_ok in Hchk. destruct Hchk as [[] [_ Hchk]].
  apply InitFacts.bind_ok in Hchk. destruct Hchk as [[] [Hprops _]].
  pose proof (InitFacts.props_loop_exactly_one _ Hprops) as Hone.
  (* the classes *)
  destruct (ClassifierLoop.classifier_ok_inv _ _ _ _ _ _ Hcls)
    as [st [El _]].
  match type of El with
  | Classifier.loop _ ?vars _ = _ =>
      assert (Hnd : NoDup (keys vars))
        by (apply AssertionFacts.init_keys_nodup; reflexivity)
  end.
  destruct (ClassifierLoop.loop_files _ _ _ _ ClassifierLoop.init_count_ok
              Hnd El) as [F _].
  assert (Hg : (0 < S g)%nat) by lia.
  assert (Sa : solid (shape (a_prop_as a))).
  { apply (AssertionFacts.filed_solid (S g) st "prop_as" _ Hg).
    apply F. simpl. tauto. }
  assert (Sm : solid (shape (a_prop_m a))).
  { apply (AssertionFacts.filed_solid (S g) st "prop_m" _ Hg).
    apply F. simpl. tauto. }
  apply (AssertionFacts.derived_prop_empty _ _ _ _ Sa Sm Wa Wm Ex Eps).
  - apply (Hone "prop_as"). simpl. tauto.
  - apply (Hone "prop_m"). simpl. tauto.
  - apply (Hone "prop_s"). simpl. tauto.
Qed.

Lemma X6_witness :
  well_formed (a_prop_as Examples.degenerate_args)
  /\ well_formed (a_prop_m Examples.degenerate_args)
  /\ init true Examples.degenerate_args = Ok degenerate_model
  /\ nb_groups degenerate_model = 0%nat.
Proof.
  assert (Wa : well_formed (a_prop_as Examples.degenerate_args))
    by reflexivity.
  assert (Wm : well_formed (a_prop_m Examples.degenerate_args))
    by reflexivity.
  assert (H : init true Examples.degenerate_args = Ok degenerate_model)
    by (vm_compute; reflexivity).
  split; [exact Wa|]. split; [exact Wm|]. split; [exact H|].
  exact (X6_assertions_leave_only_the_empty_model
           Examples.degenerate_args degenerate_model Wa Wm H).
Defined.

(** ** The methods on a constructed instance *)

Section UnsolvableFacts.

Variable rng_state : Type.
Variable odeint :
  (ndarray Q -> Q -> result (ndarray Q)) -> ndarray Q -> ndarray Q ->
  result (ndarray Q).
Variable ne_mismatch : result bool.
Variables np_log gammaln : Q -> Q.
Variable softmax : ndarray Q -> ndarray Q.
Variable choice :
  rng_state -> nat -> Z -> ndarray Q -> result (list nat) * rng_state.

Lemma init_unsolved debug a m :
  init debug a = Ok m -> _solved m = false /\ other_attrs m = [].
Proof.
  unfold init. intros H.
  repeat (apply InitFacts.bind_ok in H; destruct H as [? [? H]]).
  inversion H; subst. split; reflexivity.
Qed.

(** On an unsolved instance whose derivative always raises, [solve]
    raises and leaves the instance as it was, whenever the integrator
    passes the failure on. *)
Lemma solve_needs_derivative (w : world rng_state) t y0_arg :
  (forall f y0 t,
     (forall y tau, is_ok (f y tau) = false) ->
     is_ok (odeint f y0 t) = false) ->
  _solved (self w) = false -> other_attrs (self w) = [] ->
  is_ok (fst (solve odeint ne_mismatch w t y0_arg)) = false
  /\ self (snd (solve odeint ne_mismatch w t y0_arg)) = self w.
Proof.
  intros Hint Hs Ha. unfold solve, integrate. rewrite Hs. simpl negb.
  cbv iota zeta.
  assert (Hf : is_ok (odeint (_ode (self w))
                        (match y0_arg with None => y0 (self w) | Some y => y end)
                        (asarray t)) = false).
  { apply Hint. intros y tau. apply OdeFacts.ode_needs_attrs. exact Ha. }
  destruct (odeint _ _ _) as [raw|e]; [discriminate Hf|].
  cbn [bind fst snd self]. split; reflexivity.
Qed.

(** X7. On an instance as the constructor returns it, [solve] and
    [calculate_sir_posterior] never return: the derivative raises for
    want of the two attributes, so every integrator that passes a failing
    derivative on fails, and the instance is left as it was (unsolved, so
    the next call fails alike). *)
Theorem X7_methods_raise_on_constructed_instances :
  forall debug a m (w : world rng_state) t y0_arg o1 o2 o3 o4
         ra rm rs ratio sm,
    (forall f y0 t,
       (forall y tau, is_ok (f y tau) = false) ->
       is_ok (odeint f y0 t) = false) ->
    init debug a = Ok m -> self w = m ->
    is_ok (fst (solve odeint ne_mismatch w t y0_arg)) = false
    /\ self (snd (solve odeint ne_mismatch w t y0_arg)) = m
    /\ is_ok (fst (calculate_sir_posterior odeint ne_mismatch np_log gammaln
                     softmax choice w t o1 o2 o3 o4 ra rm rs ratio
                     y0_arg sm)) = false
    /\ self (snd (calculate_sir_posterior odeint ne_mismatch np_log gammaln
                    softmax choice w t o1 o2 o3 o4 ra rm rs ratio
                    y0_arg sm)) = m.
Proof.
  intros debug a m w t y0_arg o1 o2 o3 o4 ra rm rs ratio sm Hint Hi Hw.
  destruct (init_unsolved debug a m Hi) as [Hs Ha]. rewrite <- Hw in Hs, Ha.
  destruct (solve_needs_derivative w t y0_arg Hint Hs Ha) as [S1 S2].
  split; [exact S1|]. split; [rewrite S2; exact Hw|].
  unfold calculate_sir_posterior. cbv zeta.
  destruct (bind (cast_obs o1) _) as [[[[oa ob] oc] od]|e];
    [|split; [reflexivity | exact Hw]].
  destruct (solve_needs_derivative w (NdArray (asarray t)) y0_arg Hint Hs Ha)
    as [P1 P2].
  destruct (solve odeint ne_mismatch w (NdArray (asarray t)) y0_arg)
    as [[y|e] w1]; [discriminate P1|].
  cbn [fst snd] in *. split; [reflexivity|]. rewrite P2. exact Hw.
Qed.

End UnsolvableFacts.

Lemma probe_odeint_passes_failure :
  forall f y0 t,
    (forall y tau, is_ok (f y tau) = false) ->
    is_ok (probe_odeint f y0 t) = false.
Proof.
  intros f y0 t H. unfold probe_odeint.
  apply OdeFacts.bind_not_ok. apply H.
Qed.

Lemma X7_witness :
  init false Examples.sampled_args = Ok Examples.sampled_model
  /\ self Examples.world0 = Examples.sampled_model
  /\ is_ok (fst (solve probe_odeint Examples.mismatch_error Examples.world0
                   (NdArray (Examples.grid [0; 1; 2])) None)) = false
  /\ is_ok (fst (calculate_sir_posterior probe_odeint Examples.mismatch_error
                   (fun _ => 0) (fun _ => 0) Examples.uniform_softmax
                   Examples.last_choice Examples.world0
                   (NdArray (Examples.grid [0; 1; 2])) None
                   (Some (Examples.grid [1; 2; 3])) None None
                   0 (3 # 10) 1 1%float None 1)) = false.
Proof.
  assert (Hi : init false Examples.sampled_args = Ok Examples.sampled_model)
    by (vm_compute; reflexivity).
  assert (Hw : self Examples.world0 = Examples.sampled_model) by reflexivity.
  pose proof (X7_methods_raise_on_constructed_instances nat probe_odeint
                Examples.mismatch_error (fun _ => 0) (fun _ => 0)
                Examples.uniform_softmax Examples.last_choice
                false Examples.sampled_args Examples.sampled_model
                Examples.world0 (NdArray (Examples.grid [0; 1; 2])) None
                None (Some (Examples.grid [1; 2; 3])) None None
                0 (3 # 10) 1 1%float 1
                probe_odeint_passes_failure Hi Hw) as [P1 [_ [P3 _]]].
  split; [exact Hi|]. split; [exact Hw|]. split; [exact P1 | exact P3].
Defined.
